(** * traefik-cors: the CORS decision rules and the preflight handler

    A shallow embedding of [cors/cors.go] and of the middleware of
    [traefik/plugin.go], with the properties of the header-decision rules,
    of the precomputed cache and of the handler.

    Go strings are byte sequences: they are [string] here (a list of 8-bit
    [ascii]).  A [map[string]V] is a [gmap string V]; reading a key that is
    absent (or reading a nil map) gives the zero value, which the lookups
    below write out.  A slice is a [list]; nil and empty slices behave alike
    under [range], [len] and [strings.Join], the only operations used. *)

From Stdlib Require Import ZArith Ascii String List Lia.
From stdpp Require Import base decidable option list gmap strings fin_maps.

Local Open Scope Z_scope.

(** ** The Go standard library functions the source calls *)

Module textproto.

(** [validHeaderFieldByte]: the token characters of RFC 7230. *)
Definition validHeaderFieldByte (c : ascii) : bool :=
  let n := N_of_ascii c in
  ((48 <=? n) && (n <=? 57))%N        (* 0-9 *)
  || ((65 <=? n) && (n <=? 90))%N     (* A-Z *)
  || ((97 <=? n) && (n <=? 122))%N    (* a-z *)
  || existsb (Ascii.eqb c) (list_ascii_of_string "!#$%&'*+-.^_`|~").

Definition isLower (c : ascii) : bool :=
  let n := N_of_ascii c in ((97 <=? n) && (n <=? 122))%N.

Definition isUpper (c : ascii) : bool :=
  let n := N_of_ascii c in ((65 <=? n) && (n <=? 90))%N.

(** The loop of [canonicalMIMEHeaderKey]: the first letter and every letter
    after a hyphen in upper case, the others in lower case
    ([toLower = 'a' - 'A' = 32]). *)
Fixpoint canonLoop (upper : bool) (s : string) : string :=
  match s with
  | EmptyString => EmptyString
  | String c rest =>
      let c' :=
        if upper && isLower c then ascii_of_N (N_of_ascii c - 32)
        else if negb upper && isUpper c then ascii_of_N (N_of_ascii c + 32)
        else c in
      String c' (canonLoop (Ascii.eqb c' "-") rest)
  end.

(** [CanonicalMIMEHeaderKey]: a key with a byte that is not a token
    character is returned unchanged. *)
Definition CanonicalMIMEHeaderKey (s : string) : string :=
  if forallb validHeaderFieldByte (list_ascii_of_string s)
  then canonLoop true s else s.

End textproto.

Module http.

Definition MethodOptions : string := "OPTIONS".
Definition StatusNoContent : Z := 204.

(** [http.Header] is [map[string][]string]. *)
Abbreviation Header := (gmap string (list string)).

(** [Header.Get]: the first value under the canonical key, or [""]. *)
Definition Get (h : Header) (key : string) : string :=
  match h !! textproto.CanonicalMIMEHeaderKey key with
  | Some (v :: _) => v
  | _ => ""
  end.

(** [Header.Set]: replaces the values under the canonical key.  ([Set] is
    a keyword here, hence the underscore.) *)
Definition Set_ (h : Header) (key value : string) : Header :=
  <[textproto.CanonicalMIMEHeaderKey key := [value]]> h.

(** [Header.Add]: appends to the values under the canonical key. *)
Definition Add (h : Header) (key value : string) : Header :=
  <[textproto.CanonicalMIMEHeaderKey key :=
      default [] (h !! textproto.CanonicalMIMEHeaderKey key) ++ [value]]> h.

(** The fields of [http.Request] that the package reads; [Header_] is the
    field [Header], named apart from the type. *)
Record Request : Type := mkRequest {
  Method : string;
  Header_ : Header
}.

(** An [http.ResponseWriter], observed through its interface: the header
    map that [Header()] hands out (one shared map, mutated in place) and
    the status codes passed to [WriteHeader], oldest first. *)
Record ResponseWriter : Type := mkResponseWriter {
  rw_header : Header;
  rw_status : list Z
}.

Definition WriteHeader (code : Z) (rw : ResponseWriter) : ResponseWriter :=
  {| rw_header := rw_header rw; rw_status := rw_status rw ++ [code] |}.

Definition withHeader (f : Header -> Header) (rw : ResponseWriter)
  : ResponseWriter :=
  {| rw_header := f (rw_header rw); rw_status := rw_status rw |}.

End http.

Module strings.

(** [strings.Join]: [""] for no element, the element itself for one,
    otherwise the first element followed by [sep] and the next one, for
    each of the others. *)
Fixpoint joinTail (sep : string) (elems : list string) : string :=
  match elems with
  | [] => ""
  | s :: rest => sep +:+ s +:+ joinTail sep rest
  end.

Definition Join (elems : list string) (sep : string) : string :=
  match elems with
  | [] => ""
  | [s] => s
  | s :: rest => s +:+ joinTail sep rest
  end.

End strings.

Module strconv.

(** The byte ['0' + d]. *)
Definition digitByte (d : Z) : ascii :=
  ascii_of_N (N_of_ascii "0" + Z.to_N d).

(** The digit loop of [formatBits] in base 10, filling the buffer from its
    end: [for u >= 10 { q := u / 10; a[i] = '0' + u - q*10; u = q }] and
    then [a[i] = '0' + u].  [fuel] bounds the number of iterations. *)
Fixpoint formatLoop (fuel : nat) (u : Z) (a : string) : string :=
  match fuel with
  | O => String (digitByte u) a
  | S fuel' =>
      if 10 <=? u then
        let q := u / 10 in
        formatLoop fuel' q (String (digitByte (u - q * 10)) a)
      else String (digitByte u) a
  end.

(** [formatBits(nil, uint64(i), 10, i < 0, false)]: the magnitude in
    decimal, with a leading ['-'] when negative.  A number [u] has at most
    [log2 u + 1] decimal digits, which is the fuel given. *)
Definition formatBits (u : Z) (neg : bool) : string :=
  let digits := formatLoop (Z.to_nat (Z.log2 u)) u "" in
  if neg then String "-" digits else digits.

(** [strconv.Itoa(i) = FormatInt(int64(i), 10)].  (The table of the
    numbers below 100 that [FormatInt] reads first holds the same
    strings.)  Go's [int] is a range of [Z]; the function is given on all
    of [Z]. *)
Definition Itoa (i : Z) : string :=
  if i <? 0 then formatBits (- i) true else formatBits i false.

(** The reading of a decimal numeral, to state what [Itoa] renders. *)
Definition isDigit (c : ascii) : bool :=
  let n := N_of_ascii c in ((48 <=? n) && (n <=? 57))%N.

Definition digitValue (c : ascii) : option Z :=
  if isDigit c then Some (Z.of_N (N_of_ascii c) - 48) else None.

Fixpoint readDigits (acc : Z) (s : string) : option Z :=
  match s with
  | EmptyString => Some acc
  | String c rest =>
      match digitValue c with
      | Some d => readDigits (10 * acc + d) rest
      | None => None
      end
  end.

Definition readDecimal (s : string) : option Z :=
  match s with
  | EmptyString => None
  | String "-" EmptyString => None
  | String "-" rest => option_map Z.opp (readDigits 0 rest)
  | _ => readDigits 0 s
  end.

Fixpoint allDigits (s : string) : bool :=
  match s with
  | EmptyString => true
  | String c rest => isDigit c && allDigits rest
  end.

(** The numerals in canonical form: digits, at least one, with no leading
    zero except in ["0"]; a ['-'] in front of a number that is not zero. *)
Definition canonicalDigits (s : string) : bool :=
  match s with
  | EmptyString => false
  | String "0" rest => String.eqb rest ""
  | _ => allDigits s
  end.

Definition canonicalNumeral (s : string) : bool :=
  match s with
  | String "-" rest => canonicalDigits rest && negb (String.eqb rest "0")
  | _ => canonicalDigits s
  end.

End strconv.


(** ** State passing

    The methods have pointer receivers and the handler writes through the
    [ResponseWriter] it is given: a computation takes the state of the
    objects it can reach and returns its result with their new state. *)

Definition State (S A : Type) : Type := S -> A * S.

Definition ret {S A : Type} (a : A) : State S A := fun s => (a, s).

Definition bind {S A B : Type} (m : State S A) (k : A -> State S B)
  : State S B :=
  fun s => let (a, s') := m s in k a s'.

Definition gets {S A : Type} (f : S -> A) : State S A := fun s => (f s, s).

Definition modify {S : Type} (f : S -> S) : State S unit :=
  fun s => (tt, f s).

Definition evalState {S A : Type} (m : State S A) (s : S) : A := fst (m s).

Definition execState {S A : Type} (m : State S A) (s : S) : S := snd (m s).

Notation "'let!' x ':=' m 'in' k" := (bind m (fun x => k))
  (at level 10, x name, m at level 100, k at level 200, only parsing).

Notation "m '>>' k" := (bind m (fun _ => k))
  (at level 61, left associativity, only parsing).

(** ** Package cors *)

Module cors.
Import http.

Definition HeaderOrigin : string := "Origin".
Definition HeaderVary : string := "Vary".
Definition HeaderAllowCredentials : string := "Access-Control-Allow-Credentials".
Definition HeaderAllowOrigin : string := "Access-Control-Allow-Origin".
Definition HeaderAllowHeaders : string := "Access-Control-Allow-Headers".
Definition HeaderAllowMethods : string := "Access-Control-Allow-Methods".
Definition HeaderExposeHeaders : string := "Access-Control-Expose-Headers".
Definition HeaderMaxAge : string := "Access-Control-Max-Age".
Definition HeaderRequestMethod : string := "Access-Control-Request-Method".
Definition HeaderRequestHeaders : string := "Access-Control-Request-Headers".
Definition HeaderValueWildcard : string := "*".
Definition DefaultMaxAge : Z := 5.

(** [s != ""] *)
Definition nonEmpty (s : string) : bool := negb (String.eqb s "").

(** [Request.IsPreflight] *)
Definition IsPreflight (r : Request) : bool :=
  String.eqb (Method r) MethodOptions
  && nonEmpty (Get (Header_ r) HeaderOrigin)
  && nonEmpty (Get (Header_ r) HeaderRequestMethod)
  && nonEmpty (Get (Header_ r) HeaderRequestHeaders).

Record Options : Type := mkOptions {
  AllowCredentials : bool;
  AllowHeaders : list string;
  AllowMethods : list string;
  AllowOrigins : list string;
  ExposeHeaders : list string;
  MaxAge : Z;
  cache : gmap string string
}.

(** [NewOptions]; the nil [cache] reads as the empty map. *)
Definition NewOptions : Options :=
  {| AllowCredentials := false;
     AllowHeaders := [];
     AllowMethods := [];
     AllowOrigins := [];
     ExposeHeaders := [];
     MaxAge := DefaultMaxAge;
     cache := ∅ |}.

(** The loop of [GetAllowOrigin] over the entries that are left, with the
    current [result]; the [switch] tries the wildcard case first. *)
Fixpoint allowOriginLoop (origin result : string) (aos : list string)
  : string :=
  match aos with
  | [] => result
  | ao :: rest =>
      if String.eqb ao HeaderValueWildcard then HeaderValueWildcard
      else if String.eqb ao origin then allowOriginLoop origin origin rest
      else allowOriginLoop origin result rest
  end.

(** [Options.GetAllowOrigin] *)
Definition GetAllowOrigin (request : Request) : State Options string :=
  let origin := Get (Header_ request) HeaderOrigin in
  let! aos := gets AllowOrigins in
  ret (allowOriginLoop origin "" aos).

(** [Options.GetAllowCredentials] *)
Definition GetAllowCredentials : State Options string :=
  let! c := gets AllowCredentials in
  if c then ret "true" else ret "".

(** The loop shared by [GetAllowMethods], [GetAllowHeaders] and
    [GetExposeHeaders]: [Some] is the value of the [return] inside the
    loop, [None] is falling out of it. *)
Fixpoint wildcardLoop (l : list string) : option string :=
  match l with
  | [] => None
  | x :: rest =>
      if String.eqb x HeaderValueWildcard then Some HeaderValueWildcard
      else wildcardLoop rest
  end.

(** [Options.GetAllowMethods] *)
Definition GetAllowMethods : State Options string :=
  let! ams := gets AllowMethods in
  match wildcardLoop ams with
  | Some w => ret w
  | None => ret (strings.Join ams ", ")
  end.

(** [Options.GetAllowHeaders] *)
Definition GetAllowHeaders : State Options string :=
  let! ahs := gets AllowHeaders in
  match wildcardLoop ahs with
  | Some w => ret w
  | None => ret (strings.Join ahs ", ")
  end.

(** [Options.GetMaxAge] *)
Definition GetMaxAge : State Options string :=
  let! n := gets MaxAge in
  ret (strconv.Itoa n).

(** [Options.GetExposeHeaders] *)
Definition GetExposeHeaders : State Options string :=
  let! ehs := gets ExposeHeaders in
  match wildcardLoop ehs with
  | Some w => ret w
  | None => ret (strings.Join ehs ", ")
  end.

(** [Options.GetVary] *)
Definition GetVary : State Options string :=
  let! aos := gets AllowOrigins in
  if (1 <? length aos)%nat then ret HeaderOrigin else ret "".

Definition setCache (c : gmap string string) (o : Options) : Options :=
  {| AllowCredentials := AllowCredentials o;
     AllowHeaders := AllowHeaders o;
     AllowMethods := AllowMethods o;
     AllowOrigins := AllowOrigins o;
     ExposeHeaders := ExposeHeaders o;
     MaxAge := MaxAge o;
     cache := c |}.

(** [o.cache[k] = v] *)
Definition cacheStore (k v : string) : State Options unit :=
  modify (fun o => setCache (<[k := v]> (cache o)) o).

(** [o.cache[k]]: the zero value [""] for an absent key. *)
Definition cacheLoad (k : string) : State Options string :=
  gets (fun o => default "" (cache o !! k)).

(** [Options.NewHandler].  The handler it returns is the receiver itself
    under another type: the state after the call is the handler. *)
Definition NewHandler : State Options unit :=
  modify (setCache ∅) >>
  (let! v := GetAllowMethods in cacheStore HeaderAllowMethods v) >>
  (let! v := GetAllowHeaders in cacheStore HeaderAllowHeaders v) >>
  (let! v := GetExposeHeaders in cacheStore HeaderExposeHeaders v) >>
  (let! v := GetMaxAge in cacheStore HeaderMaxAge v).

(** What a call of [handler.ServeHTTP] can reach: the [Options] behind the
    handler and the [ResponseWriter]. *)
Record Serving : Type := mkServing {
  opts : Options;
  rw : ResponseWriter
}.

(** A method call on the [Options] of the handler. *)
Definition onOptions {A : Type} (m : State Options A) : State Serving A :=
  fun s => let (a, o') := m (opts s) in (a, {| opts := o'; rw := rw s |}).

(** [rw.Header().Set(k, v)], [rw.Header().Add(k, v)], [rw.WriteHeader(c)] *)
Definition headerSet (k v : string) : State Serving unit :=
  modify (fun s =>
    {| opts := opts s; rw := withHeader (fun h => Set_ h k v) (rw s) |}).

Definition headerAdd (k v : string) : State Serving unit :=
  modify (fun s =>
    {| opts := opts s; rw := withHeader (fun h => Add h k v) (rw s) |}).

Definition writeHeader (code : Z) : State Serving unit :=
  modify (fun s => {| opts := opts s; rw := WriteHeader code (rw s) |}).

(** [if v := m; v != "" { act(v) }] *)
Definition ifNonEmpty {S : Type} (m : State S string)
    (act : string -> State S unit) : State S unit :=
  let! v := m in
  if nonEmpty v then act v else ret tt.

(** [handler.ServeHTTP] *)
Definition ServeHTTP (req : Request) : State Serving unit :=
  ifNonEmpty (onOptions GetVary) (headerAdd HeaderVary) >>
  ifNonEmpty (onOptions (GetAllowOrigin req)) (headerSet HeaderAllowOrigin) >>
  ifNonEmpty (onOptions GetAllowCredentials)
             (headerSet HeaderAllowCredentials) >>
  if IsPreflight req then
    ifNonEmpty (onOptions (cacheLoad HeaderAllowMethods))
               (headerSet HeaderAllowMethods) >>
    ifNonEmpty (onOptions (cacheLoad HeaderAllowHeaders))
               (headerSet HeaderAllowHeaders) >>
    ifNonEmpty (onOptions (cacheLoad HeaderMaxAge))
               (headerSet HeaderMaxAge) >>
    writeHeader StatusNoContent
  else
    ifNonEmpty (onOptions (cacheLoad HeaderExposeHeaders))
               (headerSet HeaderExposeHeaders).

(** The handler of the specification that has no cache: the same steps,
    with the four rules computed again on each request. *)
Definition ServeHTTP_recompute (req : Request) : State Serving unit :=
  ifNonEmpty (onOptions GetVary) (headerAdd HeaderVary) >>
  ifNonEmpty (onOptions (GetAllowOrigin req)) (headerSet HeaderAllowOrigin) >>
  ifNonEmpty (onOptions GetAllowCredentials)
             (headerSet HeaderAllowCredentials) >>
  if IsPreflight req then
    ifNonEmpty (onOptions GetAllowMethods) (headerSet HeaderAllowMethods) >>
    ifNonEmpty (onOptions GetAllowHeaders) (headerSet HeaderAllowHeaders) >>
    ifNonEmpty (onOptions GetMaxAge) (headerSet HeaderMaxAge) >>
    writeHeader StatusNoContent
  else
    ifNonEmpty (onOptions GetExposeHeaders) (headerSet HeaderExposeHeaders).

(** The number of distinct origins of a configuration, in the words of the
    specification of [Vary]. *)
Definition distinctOrigins (o : Options) : nat :=
  length (remove_dups (AllowOrigins o)).

End cors.

(** ** Package traefik *)

Module traefik.
Import http.

Record Config : Type := mkConfig {
  AllowCredentials : bool;
  AllowHeaders : list string;
  AllowMethods : list string;
  AllowOrigins : list string;
  ExposeHeaders : list string;
  MaxAge : Z
}.

(** [CreateConfig] *)
Definition CreateConfig : Config :=
  {| AllowCredentials := false;
     AllowHeaders := [];
     AllowMethods := ["HEAD"; "GET"; "POST"]%string;
     AllowOrigins := ["*"]%string;
     ExposeHeaders := [];
     MaxAge := cors.DefaultMaxAge |}.

(** [New]: the [cors] field of the plugin, that is the [Options] built from
    the configuration after [NewHandler]. *)
Definition New (config : Config) : cors.Options :=
  execState cors.NewHandler
    {| cors.AllowCredentials := AllowCredentials config;
       cors.AllowHeaders := AllowHeaders config;
       cors.AllowMethods := AllowMethods config;
       cors.AllowOrigins := AllowOrigins config;
       cors.ExposeHeaders := ExposeHeaders config;
       cors.MaxAge := MaxAge config;
       cors.cache := ∅ |}.

(** What a call of [CorsPlugin.ServeHTTP] can reach: the state of the
    [cors] handler and of the [ResponseWriter], and the next handler, seen
    through the requests it was called with, oldest first. *)
Record Plugin : Type := mkPlugin {
  serving : cors.Serving;
  nextCalls : list Request
}.

Section CorsPlugin.

(** The effect of [next.ServeHTTP(rw, req)] on the [ResponseWriter]. *)
Variable next : Request -> ResponseWriter -> ResponseWriter.

(** [c.cors.ServeHTTP(rw, req)] *)
Definition callCors (req : Request) : State Plugin unit :=
  fun p => let (u, s') := cors.ServeHTTP req (serving p) in
           (u, {| serving := s'; nextCalls := nextCalls p |}).

(** [c.next.ServeHTTP(rw, req)] *)
Definition callNext (req : Request) : State Plugin unit :=
  modify (fun p =>
    {| serving := {| cors.opts := cors.opts (serving p);
                     cors.rw := next req (cors.rw (serving p)) |};
       nextCalls := nextCalls p ++ [req] |}).

(** [CorsPlugin.ServeHTTP] *)
Definition ServeHTTP (req : Request) : State Plugin unit :=
  callCors req >>
  if cors.IsPreflight req then ret tt
  else callNext req.

End CorsPlugin.

End traefik.

(** ** Header maps after a guarded update

    [if v != "" { h.Set(k, v) }] and [if v != "" { h.Add(k, v) }] as
    functions on the header map, for a key in canonical form. *)

Definition setIf (k v : string) (h : http.Header) : http.Header :=
  if cors.nonEmpty v then <[k := [v]]> h else h.

Definition addIf (k v : string) (h : http.Header) : http.Header :=
  if cors.nonEmpty v then <[k := default [] (h !! k) ++ [v]]> h else h.

(** A rule that only reads: it hands the [Options] back as they were, and
    gives the same value when it is called again. *)
Definition readOnly (m : State cors.Options string) : Prop :=
  forall o : cors.Options,
    execState m o = o /\ evalState m (execState m o) = evalState m o.

(** ** The request and the options of [TestHandler_ServeHTTP] *)

Module examples.

Definition preflight : http.Request :=
  {| http.Method := "OPTIONS";
     http.Header_ :=
       <["Access-Control-Request-Method"%string := ["GET"%string]]>
         (<["Access-Control-Request-Headers"%string := ["Content-Type"%string]]>
            (<["Origin"%string := ["https://example.com"%string]]> ∅)) |}.

Definition options : cors.Options :=
  {| cors.AllowCredentials := false;
     cors.AllowHeaders := ["Content-Type"; "Authorization"]%string;
     cors.AllowMethods := ["GET"; "POST"]%string;
     cors.AllowOrigins := ["https://example.com"]%string;
     cors.ExposeHeaders := [];
     cors.MaxAge := cors.DefaultMaxAge;
     cors.cache := ∅ |}.

(** A [ResponseWriter] nothing was written to, as [httptest.NewRecorder]
    gives. *)
Definition recorder : http.ResponseWriter :=
  {| http.rw_header := ∅; http.rw_status := [] |}.

End examples.

(** ** Reading a list header back

    The inverse of the encoding of [GetAllowMethods], [GetAllowHeaders] and
    [GetExposeHeaders]: the value is cut at every comma, and the space
    that follows a comma is dropped. *)

Module headerList.

(** The field up to the first comma, and the fields after it. *)
Fixpoint fields (s : string) : string * list string :=
  match s with
  | EmptyString => (EmptyString, [])
  | String c rest =>
      let (f, fs) := fields rest in
      if Ascii.eqb c "," then (EmptyString, f :: fs) else (String c f, fs)
  end.

Definition dropSpace (f : string) : string :=
  match f with
  | String " " rest => rest
  | _ => f
  end.

(** The empty value is the empty list. *)
Definition decode (s : string) : list string :=
  match s with
  | EmptyString => []
  | _ => let (f, fs) := fields s in f :: map dropSpace fs
  end.

Fixpoint commaFree (s : string) : bool :=
  match s with
  | EmptyString => true
  | String c rest => negb (Ascii.eqb c ",") && commaFree rest
  end.

End headerList.

(** ** Requests served one after the other *)

Module server.


End server.

(** * Properties *)

(** ** Strings, header keys and header maps *)

Lemma nonEmpty_true (s : string) : cors.nonEmpty s = true <-> s <> ""%string.
Proof.
  unfold cors.nonEmpty. rewrite negb_true_iff.
  split; intro H.
  - intros ->. discriminate.
  - apply String.eqb_neq. exact H.
Qed.

Lemma nonEmpty_false (s : string) : cors.nonEmpty s = false <-> s = ""%string.
Proof.
  unfold cors.nonEmpty. rewrite negb_false_iff. apply String.eqb_eq.
Qed.

(** The header names of the package are in canonical form already, so
    [Get], [Set] and [Add] use them as they are. *)
Lemma canonical_header_names :
  Forall (fun k => textproto.CanonicalMIMEHeaderKey k = k)
    [cors.HeaderOrigin; cors.HeaderVary; cors.HeaderAllowCredentials;
     cors.HeaderAllowOrigin; cors.HeaderAllowHeaders;
     cors.HeaderAllowMethods; cors.HeaderExposeHeaders; cors.HeaderMaxAge;
     cors.HeaderRequestMethod; cors.HeaderRequestHeaders].
Proof. repeat constructor. Qed.

(** A header is non-empty for [Get] when its first value is. *)
Lemma Get_nonempty (h : http.Header) (k : string) :
  http.Get h k <> ""%string <->
  exists v vs, h !! textproto.CanonicalMIMEHeaderKey k = Some (v :: vs)
               /\ v <> ""%string.
Proof.
  unfold http.Get.
  destruct (h !! textproto.CanonicalMIMEHeaderKey k) as [[|v vs]|];
    split; try (intros H; exfalso; apply H; reflexivity);
    try (intros (v' & vs' & H & _); discriminate).
  - intros H. exists v, vs. split; [reflexivity | exact H].
  - intros (v' & vs' & H & Hv). injection H as -> ->. exact Hv.
Qed.

(** ** String append *)

Lemma sapp_cons (c : ascii) (s t : string) :
  (String c s +:+ t = String c (s +:+ t))%string.
Proof. reflexivity. Qed.

Lemma sapp_nil_r (s : string) : (s +:+ "" = s)%string.
Proof.
  induction s as [|c s IH]; [reflexivity|].
  rewrite sapp_cons, IH. reflexivity.
Qed.

Lemma sapp_assoc (s t u : string) :
  ((s +:+ t) +:+ u = s +:+ (t +:+ u))%string.
Proof.
  induction s as [|c s IH]; [reflexivity|].
  rewrite !sapp_cons, IH. reflexivity.
Qed.

(** ** strings.Join *)

Lemma joinTail_concat (sep x : string) (l : list string) :
  strings.joinTail sep (x :: l) = (sep +:+ String.concat sep (x :: l))%string.
Proof.
  revert x. induction l as [|y l IH]; intros x.
  - cbn [strings.joinTail String.concat]. rewrite sapp_nil_r. reflexivity.
  - change (strings.joinTail sep (x :: y :: l))
      with (sep +:+ x +:+ strings.joinTail sep (y :: l))%string.
    rewrite IH. reflexivity.
Qed.

(** [strings.Join] is the concatenation with separators of the standard
    library. *)
Lemma Join_concat (l : list string) (sep : string) :
  strings.Join l sep = String.concat sep l.
Proof.
  destruct l as [|x [|y l]]; try reflexivity.
  change (strings.Join (x :: y :: l) sep)
    with (x +:+ strings.joinTail sep (y :: l))%string.
  rewrite joinTail_concat. reflexivity.
Qed.

(** ** strconv.Itoa *)

Lemma digitValue_digitByte (d : Z) :
  0 <= d < 10 -> strconv.digitValue (strconv.digitByte d) = Some d.
Proof.
  intros H.
  assert (d = 0 \/ d = 1 \/ d = 2 \/ d = 3 \/ d = 4 \/ d = 5 \/ d = 6
          \/ d = 7 \/ d = 8 \/ d = 9) as Hd by lia.
  repeat (destruct Hd as [-> | Hd]; [reflexivity|]). subst d. reflexivity.
Qed.

Lemma isDigit_digitByte (d : Z) :
  0 <= d < 10 -> strconv.isDigit (strconv.digitByte d) = true.
Proof.
  intros H. pose proof (digitValue_digitByte d H) as E.
  unfold strconv.digitValue in E.
  destruct (strconv.isDigit (strconv.digitByte d)); [reflexivity|discriminate].
Qed.

Lemma digitByte_zero (d : Z) :
  0 <= d < 10 -> strconv.digitByte d = "0"%char -> d = 0.
Proof.
  intros H E. pose proof (digitValue_digitByte d H) as V.
  rewrite E in V. injection V as <-. reflexivity.
Qed.

Lemma readDigits_app (acc : Z) (s t : string) :
  strconv.readDigits acc (s +:+ t) =
  match strconv.readDigits acc s with
  | Some a => strconv.readDigits a t
  | None => None
  end.
Proof.
  revert acc. induction s as [|c s IH]; intros acc; [reflexivity|].
  rewrite sapp_cons. cbn [strconv.readDigits].
  destruct (strconv.digitValue c); [apply IH | reflexivity].
Qed.

Lemma allDigits_app (s t : string) :
  strconv.allDigits (s +:+ t) = strconv.allDigits s && strconv.allDigits t.
Proof.
  induction s as [|c s IH]; [reflexivity|].
  rewrite sapp_cons. cbn [strconv.allDigits]. rewrite IH.
  apply andb_assoc.
Qed.

(** What the digit loop puts in front of the buffer [a], given fuel for the
    digits of [u]: digits that read back as [u], the first of them a zero
    only for [u = 0]. *)
Lemma formatLoop_digits (fuel : nat) :
  forall (u : Z) (a : string),
    0 <= u < 10 * 10 ^ Z.of_nat fuel ->
    exists (c : ascii) (d : string) (w : Z),
      strconv.formatLoop fuel u a = (String c d +:+ a)%string
      /\ strconv.allDigits (String c d) = true
      /\ (c = "0"%char -> u = 0 /\ d = ""%string)
      /\ forall acc, strconv.readDigits acc (String c d) = Some (acc * w + u).
Proof.
  induction fuel as [|fuel IH]; intros u a Hu.
  - change (10 ^ Z.of_nat 0) with 1 in Hu.
    exists (strconv.digitByte u), ""%string, 10.
    split; [reflexivity|]. split.
    { cbn [strconv.allDigits]. rewrite isDigit_digitByte by lia. reflexivity. }
    split.
    { intros E. split; [|reflexivity]. apply digitByte_zero; [lia | exact E]. }
    intros acc. cbn [strconv.readDigits].
    rewrite digitValue_digitByte by lia. f_equal. lia.
  - cbn [strconv.formatLoop]. destruct (10 <=? u) eqn:E10.
    + apply Z.leb_le in E10.
      assert (0 <= u / 10 < 10 * 10 ^ Z.of_nat fuel) as Hq.
      { rewrite Nat2Z.inj_succ, Z.pow_succ_r in Hu by lia.
        split; [apply Z.div_pos; lia|].
        apply Z.div_lt_upper_bound; lia. }
      set (r := u - u / 10 * 10).
      assert (0 <= r < 10) as Hr.
      { subst r. pose proof (Z.mod_pos_bound u 10 ltac:(lia)) as Hm.
        rewrite Z.mod_eq in Hm by lia. lia. }
      destruct (IH (u / 10) (String (strconv.digitByte r) a) Hq)
        as (c & d & w & Hfmt & Hall & Hzero & Hread).
      exists c, (d +:+ String (strconv.digitByte r) "")%string, (w * 10).
      split.
      { rewrite Hfmt. rewrite <- sapp_cons, sapp_assoc. reflexivity. }
      split.
      { rewrite <- sapp_cons, allDigits_app, Hall.
        cbn [strconv.allDigits]. rewrite isDigit_digitByte by lia.
        reflexivity. }
      split.
      { intros E. destruct (Hzero E) as [Hq0 _].
        assert (1 <= u / 10) by (apply Z.div_le_lower_bound; lia). lia. }
      intros acc. rewrite <- sapp_cons, readDigits_app, Hread.
      cbn [strconv.readDigits]. rewrite digitValue_digitByte by lia.
      f_equal. subst r. lia.
    + apply Z.leb_gt in E10.
      exists (strconv.digitByte u), ""%string, 10.
      split; [reflexivity|]. split.
      { cbn [strconv.allDigits]. rewrite isDigit_digitByte by lia.
        reflexivity. }
      split.
      { intros E. split; [|reflexivity]. apply digitByte_zero; [lia|exact E]. }
      intros acc. cbn [strconv.readDigits].
      rewrite digitValue_digitByte by lia. f_equal. lia.
Qed.

(** The fuel that [formatBits] gives is enough. *)
Lemma formatBits_fuel (u : Z) :
  0 <= u -> 0 <= u < 10 * 10 ^ Z.of_nat (Z.to_nat (Z.log2 u)).
Proof.
  intros Hu. split; [exact Hu|].
  rewrite Z2Nat.id by apply Z.log2_nonneg.
  destruct (Z.eq_dec u 0) as [->|Hne]; [reflexivity|].
  pose proof (Z.log2_spec u ltac:(lia)) as [_ Hlt].
  rewrite Z.pow_succ_r in Hlt by apply Z.log2_nonneg.
  assert (2 ^ Z.log2 u <= 10 ^ Z.log2 u) as Hle.
  { apply Z.pow_le_mono_l. lia. }
  lia.
Qed.

Lemma formatBits_digits (u : Z) :
  0 <= u ->
  exists (c : ascii) (d : string),
    strconv.formatBits u false = String c d
    /\ strconv.formatBits u true = String "-" (String c d)
    /\ strconv.allDigits (String c d) = true
    /\ (c = "0"%char -> u = 0 /\ d = ""%string)
    /\ strconv.readDigits 0 (String c d) = Some u.
Proof.
  intros Hu.
  destruct (formatLoop_digits _ u ""%string (formatBits_fuel u Hu))
    as (c & d & w & Hfmt & Hall & Hzero & Hread).
  rewrite sapp_nil_r in Hfmt.
  exists c, d. unfold strconv.formatBits. rewrite Hfmt.
  split; [reflexivity|]. split; [reflexivity|].
  split; [exact Hall|]. split; [exact Hzero|].
  rewrite Hread. f_equal; lia.
Qed.

Ltac each_ascii c :=
  destruct c as [[] [] [] [] [] [] [] []]; try reflexivity; try discriminate.

Lemma readDecimal_unsigned (c : ascii) (d : string) :
  strconv.isDigit c = true ->
  strconv.readDecimal (String c d) = strconv.readDigits 0 (String c d).
Proof. intros H. each_ascii c. Qed.

Lemma canonicalNumeral_unsigned (c : ascii) (d : string) :
  strconv.isDigit c = true ->
  strconv.canonicalNumeral (String c d) = strconv.canonicalDigits (String c d).
Proof. intros H. each_ascii c. Qed.

Lemma canonicalDigits_lead (c : ascii) (d : string) :
  c <> "0"%char ->
  strconv.canonicalDigits (String c d) = strconv.allDigits (String c d).
Proof. intros H. each_ascii c. exfalso. apply H. reflexivity. Qed.

Lemma canonicalDigits_formatBits (u : Z) :
  0 <= u -> strconv.canonicalDigits (strconv.formatBits u false) = true.
Proof.
  intros Hu.
  destruct (formatBits_digits u Hu) as (c & d & E & _ & Hall & Hzero & _).
  rewrite E. destruct (Ascii.eqb_spec c "0"%char) as [->|Hne].
  - destruct (Hzero eq_refl) as [_ ->]. reflexivity.
  - rewrite canonicalDigits_lead by exact Hne. exact Hall.
Qed.

(** [Itoa] renders its argument in decimal: the string reads back as the
    number. *)
Lemma Itoa_readDecimal (i : Z) : strconv.readDecimal (strconv.Itoa i) = Some i.
Proof.
  unfold strconv.Itoa. destruct (i <? 0) eqn:E.
  - apply Z.ltb_lt in E.
    destruct (formatBits_digits (- i) ltac:(lia))
      as (c & d & _ & En & _ & _ & Hread).
    rewrite En.
    change (strconv.readDecimal (String "-" (String c d)))
      with (option_map Z.opp (strconv.readDigits 0 (String c d))).
    rewrite Hread. cbn [option_map]. f_equal. lia.
  - apply Z.ltb_ge in E.
    destruct (formatBits_digits i E) as (c & d & Ep & _ & Hall & _ & Hread).
    rewrite Ep. rewrite readDecimal_unsigned; [exact Hread|].
    cbn [strconv.allDigits] in Hall. apply andb_true_iff in Hall. tauto.
Qed.

(** ... and in canonical form: no sign for a number that is not negative,
    no leading zero. *)
Lemma Itoa_canonical (i : Z) : strconv.canonicalNumeral (strconv.Itoa i) = true.
Proof.
  unfold strconv.Itoa. destruct (i <? 0) eqn:E.
  - apply Z.ltb_lt in E.
    pose proof (canonicalDigits_formatBits (- i) ltac:(lia)) as Hcan.
    destruct (formatBits_digits (- i) ltac:(lia))
      as (c & d & Ep & En & _ & Hzero & _).
    rewrite En. rewrite Ep in Hcan.
    change (strconv.canonicalNumeral (String "-" (String c d)))
      with (strconv.canonicalDigits (String c d)
            && negb (String.eqb (String c d) "0")).
    rewrite Hcan. cbn [andb]. apply negb_true_iff, String.eqb_neq.
    intros H. injection H as Hc _. destruct (Hzero Hc). lia.
  - apply Z.ltb_ge in E.
    pose proof (canonicalDigits_formatBits i E) as Hcan.
    destruct (formatBits_digits i E) as (c & d & Ep & _ & Hall & _ & _).
    rewrite Ep in *. rewrite canonicalNumeral_unsigned; [exact Hcan|].
    cbn [strconv.allDigits] in Hall. apply andb_true_iff in Hall. tauto.
Qed.

Lemma Itoa_nonempty (i : Z) : strconv.Itoa i <> ""%string.
Proof.
  intros E. pose proof (Itoa_readDecimal i) as H.
  rewrite E in H. discriminate.
Qed.

Lemma Itoa_inj (i j : Z) : strconv.Itoa i = strconv.Itoa j -> i = j.
Proof.
  intros E. pose proof (Itoa_readDecimal i) as Hi.
  rewrite E, Itoa_readDecimal in Hi. congruence.
Qed.

(** ** The rules as functions of the configuration *)

Ltac list_member :=
  repeat match goal with
         | H : _ ∈ _ :: _ |- _ => apply elem_of_cons in H; destruct H
         | H : _ ∉ _ :: _ |- _ => apply not_elem_of_cons in H; destruct H
         end;
  subst; try reflexivity; try congruence; try contradiction.

Lemma wildcardLoop_spec (l : list string) :
  cors.wildcardLoop l =
  if decide ("*"%string ∈ l) then Some "*"%string else None.
Proof.
  induction l as [|x l IH]; [reflexivity|].
  cbn [cors.wildcardLoop]. unfold cors.HeaderValueWildcard.
  destruct (String.eqb_spec x "*") as [->|Hne].
  - rewrite decide_True by apply list_elem_of_here. reflexivity.
  - rewrite IH. repeat destruct (decide _); list_member.
Qed.

Lemma allowOriginLoop_spec (origin : string) (l : list string) :
  forall result : string,
    cors.allowOriginLoop origin result l =
    if decide ("*"%string ∈ l) then "*"%string
    else if decide (origin ∈ l) then origin else result.
Proof.
  induction l as [|x l IH]; intros result; [reflexivity|].
  cbn [cors.allowOriginLoop]. unfold cors.HeaderValueWildcard.
  destruct (String.eqb_spec x "*") as [->|Hne].
  - rewrite decide_True by apply list_elem_of_here. reflexivity.
  - destruct (String.eqb_spec x origin) as [->|Hno]; rewrite IH;
      repeat destruct (decide _); list_member.
Qed.

(** ** Request classification *)

(** C1. [IsPreflight] is true exactly when the method is [OPTIONS] and the
    [Origin], [Access-Control-Request-Method] and
    [Access-Control-Request-Headers] headers are all non-empty; when any one
    of the four fails, it is false. *)
Theorem IsPreflight_iff (r : http.Request) :
  (cors.IsPreflight r = true <->
   http.Method r = "OPTIONS"%string
   /\ http.Get (http.Header_ r) "Origin" <> ""%string
   /\ http.Get (http.Header_ r) "Access-Control-Request-Method" <> ""%string
   /\ http.Get (http.Header_ r) "Access-Control-Request-Headers" <> ""%string)
  /\ (cors.IsPreflight r = false <->
      http.Method r <> "OPTIONS"%string
      \/ http.Get (http.Header_ r) "Origin" = ""%string
      \/ http.Get (http.Header_ r) "Access-Control-Request-Method" = ""%string
      \/ http.Get (http.Header_ r) "Access-Control-Request-Headers" = ""%string).
Proof.
  unfold cors.IsPreflight, http.MethodOptions, cors.HeaderOrigin,
    cors.HeaderRequestMethod, cors.HeaderRequestHeaders.
  split.
  - rewrite !andb_true_iff, String.eqb_eq, !nonEmpty_true. tauto.
  - rewrite !andb_false_iff, String.eqb_neq, !nonEmpty_false. tauto.
Qed.

(** ** The header-decision rules *)

(** C3. [GetAllowOrigin] gives ["*"] when the wildcard is anywhere in the
    configured origins, whatever stands before or after it; otherwise the
    [Origin] of the request when an entry equals it, and [""] when none
    does. *)
Theorem GetAllowOrigin_spec (o : cors.Options) (req : http.Request) :
  let origin := http.Get (http.Header_ req) "Origin" in
  evalState (cors.GetAllowOrigin req) o =
    (if decide ("*"%string ∈ cors.AllowOrigins o) then "*"%string
     else if decide (origin ∈ cors.AllowOrigins o) then origin
     else ""%string)
  /\ forall (before after : list string),
       evalState (cors.GetAllowOrigin req)
         (cors.mkOptions (cors.AllowCredentials o) (cors.AllowHeaders o)
            (cors.AllowMethods o) (before ++ "*"%string :: after)
            (cors.ExposeHeaders o) (cors.MaxAge o) (cors.cache o))
       = "*"%string.
Proof.
  intros origin. split.
  - apply allowOriginLoop_spec.
  - intros before after.
    unfold evalState, cors.GetAllowOrigin, bind, gets, ret. cbn [fst cors.AllowOrigins].
    rewrite allowOriginLoop_spec. apply decide_True.
    apply elem_of_app. right. apply list_elem_of_here.
Qed.

(** Where no origin is configured twice, the length of the list is the
    number of distinct origins. *)
Lemma distinctOrigins_NoDup (o : cors.Options) :
  NoDup (cors.AllowOrigins o) ->
  cors.distinctOrigins o = length (cors.AllowOrigins o).
Proof.
  unfold cors.distinctOrigins. generalize (cors.AllowOrigins o) as l.
  induction 1 as [|x l Hx Hnd IH]; [reflexivity|].
  cbn [remove_dups]. destruct (decide_rel elem_of x l); [contradiction|].
  cbn [length]. rewrite IH. reflexivity.
Qed.

Lemma GetVary_run (o : cors.Options) :
  evalState cors.GetVary o =
  if decide (1 < length (cors.AllowOrigins o))%nat then "Origin"%string
  else ""%string.
Proof.
  unfold evalState, cors.GetVary, bind, gets, ret. cbn [fst].
  destruct (Nat.ltb_spec 1 (length (cors.AllowOrigins o))) as [H|H].
  - rewrite decide_True by exact H. reflexivity.
  - rewrite decide_False by lia. reflexivity.
Qed.

(** C4, as amended. [GetVary] counts the entries of the configured list,
    repeated ones included: ["Origin"] for more than one entry, [""]
    otherwise; a single entry, the wildcard too, gives no [Vary]. *)
Theorem GetVary_length (o : cors.Options) :
  evalState cors.GetVary o =
    (if decide (1 < length (cors.AllowOrigins o))%nat then "Origin"%string
     else ""%string)
  /\ forall origin : string,
       evalState cors.GetVary
         (cors.mkOptions (cors.AllowCredentials o) (cors.AllowHeaders o)
            (cors.AllowMethods o) [origin]
            (cors.ExposeHeaders o) (cors.MaxAge o) (cors.cache o))
       = ""%string.
Proof.
  split; [apply GetVary_run | reflexivity].
Qed.

(** C4, as stated, fails where an origin is configured twice: one distinct
    origin, and [Vary: Origin] all the same. *)
Lemma GetVary_distinct_counterexample :
  let o := cors.mkOptions false [] [] 
             ["https://example.com"; "https://example.com"]%string [] 5 ∅ in
  cors.distinctOrigins o = 1%nat
  /\ evalState cors.GetVary o = "Origin"%string
  /\ evalState cors.GetVary o <>
       (if decide (1 < cors.distinctOrigins o)%nat then "Origin"%string
        else ""%string).
Proof.
  cbv zeta. split; [reflexivity|]. split; [reflexivity|].
  intros H. vm_compute in H. discriminate H.
Qed.

(** Without repeated entries the two readings of C4 agree. *)
Lemma GetVary_distinct_NoDup (o : cors.Options) :
  NoDup (cors.AllowOrigins o) ->
  evalState cors.GetVary o =
    (if decide (1 < cors.distinctOrigins o)%nat then "Origin"%string
     else ""%string).
Proof.
  intros H. rewrite distinctOrigins_NoDup by exact H.
  apply GetVary_run.
Qed.

(** C5. [GetAllowMethods], [GetAllowHeaders] and [GetExposeHeaders] give
    ["*"] when the wildcard is anywhere in their list, otherwise the
    elements in configured order with [", "] between them; [""] for an
    empty list. *)
Theorem list_rules_spec (o : cors.Options) :
  evalState cors.GetAllowMethods o =
    (if decide ("*"%string ∈ cors.AllowMethods o) then "*"%string
     else String.concat ", " (cors.AllowMethods o))
  /\ evalState cors.GetAllowHeaders o =
    (if decide ("*"%string ∈ cors.AllowHeaders o) then "*"%string
     else String.concat ", " (cors.AllowHeaders o))
  /\ evalState cors.GetExposeHeaders o =
    (if decide ("*"%string ∈ cors.ExposeHeaders o) then "*"%string
     else String.concat ", " (cors.ExposeHeaders o))
  /\ let empty := cors.mkOptions (cors.AllowCredentials o) [] []
                    (cors.AllowOrigins o) [] (cors.MaxAge o) (cors.cache o) in
     evalState cors.GetAllowMethods empty = ""%string
     /\ evalState cors.GetAllowHeaders empty = ""%string
     /\ evalState cors.GetExposeHeaders empty = ""%string.
Proof.
  unfold evalState, cors.GetAllowMethods, cors.GetAllowHeaders,
    cors.GetExposeHeaders, bind, gets, ret.
  cbn [fst]. rewrite !wildcardLoop_spec.
  repeat split; try reflexivity;
    destruct (decide _); cbn [fst]; try reflexivity; apply Join_concat.
Qed.

(** C7. [GetMaxAge] is the decimal numeral of the configured [MaxAge],
    negative or not: it reads back as that number and is in canonical form.
    It is a function of [MaxAge] alone, and no request enters it: 5 gives
    ["5"] and -1 gives ["-1"]. *)
Theorem GetMaxAge_decimal (o : cors.Options) :
  strconv.readDecimal (evalState cors.GetMaxAge o) = Some (cors.MaxAge o)
  /\ strconv.canonicalNumeral (evalState cors.GetMaxAge o) = true
  /\ (forall creds hs ms os es c,
        evalState cors.GetMaxAge
          (cors.mkOptions creds hs ms os es (cors.MaxAge o) c)
        = evalState cors.GetMaxAge o)
  /\ (forall creds hs ms os es c,
        evalState cors.GetMaxAge (cors.mkOptions creds hs ms os es 5 c)
        = "5"%string
        /\ evalState cors.GetMaxAge (cors.mkOptions creds hs ms os es (-1) c)
           = "-1"%string).
Proof.
  unfold evalState, cors.GetMaxAge, bind, gets, ret. cbn [fst].
  split; [apply Itoa_readDecimal|]. split; [apply Itoa_canonical|].
  split; [reflexivity|]. intros; split; reflexivity.
Qed.

(** ** Running the rules and the handler *)

Lemma bind_run {S A B : Type} (m : State S A) (k : A -> State S B)
    (s s' : S) (a : A) :
  m s = (a, s') -> bind m k s = k a s'.
Proof. intros E. unfold bind. rewrite E. reflexivity. Qed.

Lemma rule_run (m : State cors.Options string) (o : cors.Options) :
  execState m o = o -> m o = (evalState m o, o).
Proof.
  unfold execState, evalState. destruct (m o) as [v o']. cbn [fst snd].
  intros ->. reflexivity.
Qed.

Lemma GetAllowOrigin_readOnly (req : http.Request) :
  readOnly (cors.GetAllowOrigin req).
Proof. intros o. split; reflexivity. Qed.

Lemma GetAllowCredentials_readOnly : readOnly cors.GetAllowCredentials.
Proof.
  intros o. unfold execState, evalState, cors.GetAllowCredentials, bind, gets.
  destruct (cors.AllowCredentials o) eqn:E; cbn [ret fst snd]; rewrite E;
    split; reflexivity.
Qed.

Lemma GetAllowMethods_readOnly : readOnly cors.GetAllowMethods.
Proof.
  intros o. unfold execState, evalState, cors.GetAllowMethods, bind, gets.
  destruct (cors.wildcardLoop (cors.AllowMethods o)) eqn:E;
    cbn [ret fst snd]; rewrite E; split; reflexivity.
Qed.

Lemma GetAllowHeaders_readOnly : readOnly cors.GetAllowHeaders.
Proof.
  intros o. unfold execState, evalState, cors.GetAllowHeaders, bind, gets.
  destruct (cors.wildcardLoop (cors.AllowHeaders o)) eqn:E;
    cbn [ret fst snd]; rewrite E; split; reflexivity.
Qed.

Lemma GetExposeHeaders_readOnly : readOnly cors.GetExposeHeaders.
Proof.
  intros o. unfold execState, evalState, cors.GetExposeHeaders, bind, gets.
  destruct (cors.wildcardLoop (cors.ExposeHeaders o)) eqn:E;
    cbn [ret fst snd]; rewrite E; split; reflexivity.
Qed.

Lemma GetMaxAge_readOnly : readOnly cors.GetMaxAge.
Proof. intros o. split; reflexivity. Qed.

Lemma GetVary_readOnly : readOnly cors.GetVary.
Proof.
  intros o. unfold execState, evalState, cors.GetVary, bind, gets.
  destruct (1 <? length (cors.AllowOrigins o))%nat eqn:E;
    cbn [ret fst snd]; rewrite E; split; reflexivity.
Qed.

Lemma cacheLoad_readOnly (k : string) : readOnly (cors.cacheLoad k).
Proof. intros o. split; reflexivity. Qed.

Lemma ifNonEmpty_set_run (m : State cors.Options string) (k : string)
    (o : cors.Options) (w : http.ResponseWriter) :
  readOnly m ->
  textproto.CanonicalMIMEHeaderKey k = k ->
  cors.ifNonEmpty (cors.onOptions m) (cors.headerSet k)
    {| cors.opts := o; cors.rw := w |}
  = (tt, {| cors.opts := o;
            cors.rw := http.withHeader (setIf k (evalState m o)) w |}).
Proof.
  intros Hm Hk. unfold cors.ifNonEmpty, cors.onOptions, bind.
  cbn [cors.opts cors.rw]. rewrite (rule_run m o) by apply Hm.
  unfold setIf. destruct (cors.nonEmpty (evalState m o)).
  - unfold cors.headerSet, modify, http.withHeader, http.Set_.
    cbn [cors.opts cors.rw]. rewrite Hk. reflexivity.
  - unfold ret, http.withHeader. destruct w; reflexivity.
Qed.

Lemma ifNonEmpty_add_run (m : State cors.Options string) (k : string)
    (o : cors.Options) (w : http.ResponseWriter) :
  readOnly m ->
  textproto.CanonicalMIMEHeaderKey k = k ->
  cors.ifNonEmpty (cors.onOptions m) (cors.headerAdd k)
    {| cors.opts := o; cors.rw := w |}
  = (tt, {| cors.opts := o;
            cors.rw := http.withHeader (addIf k (evalState m o)) w |}).
Proof.
  intros Hm Hk. unfold cors.ifNonEmpty, cors.onOptions, bind.
  cbn [cors.opts cors.rw]. rewrite (rule_run m o) by apply Hm.
  unfold addIf. destruct (cors.nonEmpty (evalState m o)).
  - unfold cors.headerAdd, modify, http.withHeader, http.Add.
    cbn [cors.opts cors.rw]. rewrite Hk. reflexivity.
  - unfold ret, http.withHeader. destruct w; reflexivity.
Qed.

(** The headers that every response gets. *)
Lemma ServeHTTP_run (req : http.Request) (o : cors.Options)
    (w : http.ResponseWriter) :
  cors.ServeHTTP req {| cors.opts := o; cors.rw := w |} =
  (tt,
   {| cors.opts := o;
      cors.rw :=
        let h :=
          setIf "Access-Control-Allow-Credentials"
            (evalState cors.GetAllowCredentials o)
            (setIf "Access-Control-Allow-Origin"
               (evalState (cors.GetAllowOrigin req) o)
               (addIf "Vary" (evalState cors.GetVary o) (http.rw_header w)))
        in
        if cors.IsPreflight req then
          {| http.rw_header :=
               setIf "Access-Control-Max-Age"
                 (default ""%string (cors.cache o !! "Access-Control-Max-Age"%string))
                 (setIf "Access-Control-Allow-Headers"
                    (default ""%string
                       (cors.cache o !! "Access-Control-Allow-Headers"%string))
                    (setIf "Access-Control-Allow-Methods"
                       (default ""%string
                          (cors.cache o !! "Access-Control-Allow-Methods"%string))
                       h));
             http.rw_status := http.rw_status w ++ [204] |}
        else
          {| http.rw_header :=
               setIf "Access-Control-Expose-Headers"
                 (default ""%string
                    (cors.cache o !! "Access-Control-Expose-Headers"%string))
                 h;
             http.rw_status := http.rw_status w |} |}).
Proof.
  unfold cors.ServeHTTP.
  set (serve := fun _ : unit => if cors.IsPreflight req then _ else _).
  unfold bind at 1 2 3.
  rewrite ifNonEmpty_add_run by (apply GetVary_readOnly || reflexivity).
  rewrite ifNonEmpty_set_run
    by (apply GetAllowOrigin_readOnly || reflexivity).
  rewrite ifNonEmpty_set_run
    by (apply GetAllowCredentials_readOnly || reflexivity).
  subst serve. cbv beta zeta.
  destruct (cors.IsPreflight req).
  - unfold bind.
    rewrite !ifNonEmpty_set_run by (apply cacheLoad_readOnly || reflexivity).
    reflexivity.
  - rewrite !ifNonEmpty_set_run by (apply cacheLoad_readOnly || reflexivity).
    reflexivity.
Qed.

Lemma lookup_setIf_ne (k k' v : string) (h : http.Header) :
  k <> k' -> setIf k v h !! k' = h !! k'.
Proof.
  intros Hne. unfold setIf. destruct (cors.nonEmpty v); [|reflexivity].
  apply lookup_insert_ne. exact Hne.
Qed.

Lemma lookup_setIf_eq (k v : string) (h : http.Header) :
  setIf k v h !! k = if decide (v = ""%string) then h !! k else Some [v].
Proof.
  unfold setIf. destruct (cors.nonEmpty v) eqn:E.
  - apply nonEmpty_true in E. rewrite decide_False by exact E.
    apply lookup_insert_eq.
  - apply nonEmpty_false in E. rewrite decide_True by exact E. reflexivity.
Qed.

Lemma lookup_addIf_ne (k k' v : string) (h : http.Header) :
  k <> k' -> addIf k v h !! k' = h !! k'.
Proof.
  intros Hne. unfold addIf. destruct (cors.nonEmpty v); [|reflexivity].
  apply lookup_insert_ne. exact Hne.
Qed.

Lemma lookup_addIf_eq (k v : string) (h : http.Header) :
  addIf k v h !! k =
  if decide (v = ""%string) then h !! k
  else Some (default [] (h !! k) ++ [v]).
Proof.
  unfold addIf. destruct (cors.nonEmpty v) eqn:E.
  - apply nonEmpty_true in E. rewrite decide_False by exact E.
    apply lookup_insert_eq.
  - apply nonEmpty_false in E. rewrite decide_True by exact E. reflexivity.
Qed.

(** Looking a header up after the guarded updates of the handler: updates
    under other names are skipped. *)
Ltac header_lookup :=
  repeat first
    [ rewrite lookup_setIf_ne by discriminate
    | rewrite lookup_addIf_ne by discriminate
    | rewrite lookup_setIf_eq
    | rewrite lookup_addIf_eq ].


(** ** The handler and the middleware *)


(** ** The precomputed cache *)

(** The rules do not read the cache. *)
Lemma GetAllowMethods_setCache (c : gmap string string) (o : cors.Options) :
  cors.GetAllowMethods (cors.setCache c o)
  = (evalState cors.GetAllowMethods o, cors.setCache c o).
Proof.
  unfold evalState, cors.GetAllowMethods, bind, gets.
  cbn [cors.setCache cors.AllowMethods].
  destruct (cors.wildcardLoop (cors.AllowMethods o)); reflexivity.
Qed.

Lemma GetAllowHeaders_setCache (c : gmap string string) (o : cors.Options) :
  cors.GetAllowHeaders (cors.setCache c o)
  = (evalState cors.GetAllowHeaders o, cors.setCache c o).
Proof.
  unfold evalState, cors.GetAllowHeaders, bind, gets.
  cbn [cors.setCache cors.AllowHeaders].
  destruct (cors.wildcardLoop (cors.AllowHeaders o)); reflexivity.
Qed.

Lemma GetExposeHeaders_setCache (c : gmap string string) (o : cors.Options) :
  cors.GetExposeHeaders (cors.setCache c o)
  = (evalState cors.GetExposeHeaders o, cors.setCache c o).
Proof.
  unfold evalState, cors.GetExposeHeaders, bind, gets.
  cbn [cors.setCache cors.ExposeHeaders].
  destruct (cors.wildcardLoop (cors.ExposeHeaders o)); reflexivity.
Qed.

Lemma GetMaxAge_setCache (c : gmap string string) (o : cors.Options) :
  cors.GetMaxAge (cors.setCache c o)
  = (evalState cors.GetMaxAge o, cors.setCache c o).
Proof. reflexivity. Qed.

Lemma cacheStore_run (k v : string) (c : gmap string string)
    (o : cors.Options) :
  cors.cacheStore k v (cors.setCache c o)
  = (tt, cors.setCache (<[k := v]> c) o).
Proof. reflexivity. Qed.

(** The [Options] after [NewHandler]: the configuration as it was, with a
    new cache of four entries. *)
Lemma NewHandler_run (o : cors.Options) :
  execState cors.NewHandler o =
  cors.setCache
    (<["Access-Control-Max-Age"%string := evalState cors.GetMaxAge o]>
       (<["Access-Control-Expose-Headers"%string :=
            evalState cors.GetExposeHeaders o]>
          (<["Access-Control-Allow-Headers"%string :=
               evalState cors.GetAllowHeaders o]>
             (<["Access-Control-Allow-Methods"%string :=
                  evalState cors.GetAllowMethods o]> ∅))))
    o.
Proof.
  unfold execState, cors.NewHandler, bind, modify.
  rewrite GetAllowMethods_setCache, cacheStore_run.
  rewrite GetAllowHeaders_setCache, cacheStore_run.
  rewrite GetExposeHeaders_setCache, cacheStore_run.
  rewrite GetMaxAge_setCache, cacheStore_run.
  reflexivity.
Qed.

Lemma ServeHTTP_recompute_run (req : http.Request) (o : cors.Options)
    (w : http.ResponseWriter) :
  cors.ServeHTTP_recompute req {| cors.opts := o; cors.rw := w |} =
  (tt,
   {| cors.opts := o;
      cors.rw :=
        let h :=
          setIf "Access-Control-Allow-Credentials"
            (evalState cors.GetAllowCredentials o)
            (setIf "Access-Control-Allow-Origin"
               (evalState (cors.GetAllowOrigin req) o)
               (addIf "Vary" (evalState cors.GetVary o) (http.rw_header w)))
        in
        if cors.IsPreflight req then
          {| http.rw_header :=
               setIf "Access-Control-Max-Age" (evalState cors.GetMaxAge o)
                 (setIf "Access-Control-Allow-Headers"
                    (evalState cors.GetAllowHeaders o)
                    (setIf "Access-Control-Allow-Methods"
                       (evalState cors.GetAllowMethods o) h));
             http.rw_status := http.rw_status w ++ [204] |}
        else
          {| http.rw_header :=
               setIf "Access-Control-Expose-Headers"
                 (evalState cors.GetExposeHeaders o) h;
             http.rw_status := http.rw_status w |} |}).
Proof.
  unfold cors.ServeHTTP_recompute.
  set (serve := fun _ : unit => if cors.IsPreflight req then _ else _).
  unfold bind at 1 2 3.
  rewrite ifNonEmpty_add_run by (apply GetVary_readOnly || reflexivity).
  rewrite ifNonEmpty_set_run
    by (apply GetAllowOrigin_readOnly || reflexivity).
  rewrite ifNonEmpty_set_run
    by (apply GetAllowCredentials_readOnly || reflexivity).
  subst serve. cbv beta zeta.
  destruct (cors.IsPreflight req).
  - unfold bind.
    rewrite ifNonEmpty_set_run
      by (apply GetAllowMethods_readOnly || reflexivity).
    rewrite ifNonEmpty_set_run
      by (apply GetAllowHeaders_readOnly || reflexivity).
    rewrite ifNonEmpty_set_run by (apply GetMaxAge_readOnly || reflexivity).
    reflexivity.
  - rewrite ifNonEmpty_set_run
      by (apply GetExposeHeaders_readOnly || reflexivity).
    reflexivity.
Qed.

(** C6. After [NewHandler] the cache holds, under the four header names,
    what [GetAllowMethods], [GetAllowHeaders], [GetExposeHeaders] and
    [GetMaxAge] compute from the configuration (which [NewHandler] leaves as
    it was), and nothing else; the handler that reads the cache does on every
    request and every [ResponseWriter] what the handler that computes the
    rules again does. *)
Theorem NewHandler_cache (o : cors.Options) :
  let h := execState cors.NewHandler o in
  cors.cache h !! "Access-Control-Allow-Methods"%string
    = Some (evalState cors.GetAllowMethods o)
  /\ cors.cache h !! "Access-Control-Allow-Headers"%string
    = Some (evalState cors.GetAllowHeaders o)
  /\ cors.cache h !! "Access-Control-Expose-Headers"%string
    = Some (evalState cors.GetExposeHeaders o)
  /\ cors.cache h !! "Access-Control-Max-Age"%string
    = Some (evalState cors.GetMaxAge o)
  /\ dom (cors.cache h)
     = ({[ "Access-Control-Allow-Methods"; "Access-Control-Allow-Headers";
           "Access-Control-Expose-Headers"; "Access-Control-Max-Age" ]}%string
        : gset string)
  /\ cors.setCache (cors.cache o) h = o
  /\ evalState cors.GetAllowMethods h = evalState cors.GetAllowMethods o
  /\ evalState cors.GetAllowHeaders h = evalState cors.GetAllowHeaders o
  /\ evalState cors.GetExposeHeaders h = evalState cors.GetExposeHeaders o
  /\ evalState cors.GetMaxAge h = evalState cors.GetMaxAge o
  /\ forall (req : http.Request) (w : http.ResponseWriter),
       cors.ServeHTTP req {| cors.opts := h; cors.rw := w |}
       = cors.ServeHTTP_recompute req {| cors.opts := h; cors.rw := w |}.
Proof.
  cbv zeta. rewrite NewHandler_run.
  set (c := <[_ := _]> _).
  assert (c !! "Access-Control-Allow-Methods"%string
          = Some (evalState cors.GetAllowMethods o)) as Hm by reflexivity.
  assert (c !! "Access-Control-Allow-Headers"%string
          = Some (evalState cors.GetAllowHeaders o)) as Hh by reflexivity.
  assert (c !! "Access-Control-Expose-Headers"%string
          = Some (evalState cors.GetExposeHeaders o)) as He by reflexivity.
  assert (c !! "Access-Control-Max-Age"%string
          = Some (evalState cors.GetMaxAge o)) as Ha by reflexivity.
  pose proof (GetAllowMethods_setCache c o) as Rm.
  pose proof (GetAllowHeaders_setCache c o) as Rh.
  pose proof (GetExposeHeaders_setCache c o) as Re.
  pose proof (GetMaxAge_setCache c o) as Ra.
  cbn [cors.cache cors.setCache].
  split; [exact Hm|]. split; [exact Hh|]. split; [exact He|].
  split; [exact Ha|]. split.
  { subst c. rewrite !dom_insert_L, dom_empty_L. set_solver. }
  split; [destruct o; reflexivity|].
  unfold evalState at 1 3 5 7. rewrite Rm, Rh, Re, Ra. cbn [fst].
  split; [reflexivity|]. split; [reflexivity|]. split; [reflexivity|].
  split; [reflexivity|].
  intros req w. rewrite ServeHTTP_run, ServeHTTP_recompute_run.
  cbn [cors.cache cors.setCache]. rewrite Hm, Hh, He, Ha. cbn [default].
  repeat match goal with
         | |- context [evalState ?m (cors.setCache c o)] =>
             change (evalState m (cors.setCache c o))
               with (fst (m (cors.setCache c o)))
         end.
  rewrite Rm, Rh, Re, Ra. reflexivity.
Qed.

(** The run of [TestHandler_ServeHTTP]: status 204 and the three headers
    the test reads. *)
Example TestHandler_ServeHTTP :
  let s' := execState (cors.ServeHTTP examples.preflight)
              {| cors.opts := execState cors.NewHandler examples.options;
                 cors.rw := examples.recorder |} in
  http.rw_status (cors.rw s') = [204]
  /\ http.Get (http.rw_header (cors.rw s')) cors.HeaderAllowOrigin
     = "https://example.com"%string
  /\ http.Get (http.rw_header (cors.rw s')) cors.HeaderAllowHeaders
     = "Content-Type, Authorization"%string
  /\ http.Get (http.rw_header (cors.rw s')) cors.HeaderAllowMethods
     = "GET, POST"%string.
Proof. vm_compute. repeat split; reflexivity. Qed.

(** C10. A handler made by [NewHandler] answers every preflight request
    with an [Access-Control-Max-Age] header: the cached value is the
    numeral of the configured [MaxAge], which is never empty, so the guard
    in front of the header passes. *)
Theorem preflight_max_age (o : cors.Options) (req : http.Request)
    (w : http.ResponseWriter) :
  cors.IsPreflight req = true ->
  let h := execState cors.NewHandler o in
  let s' := execState (cors.ServeHTTP req) {| cors.opts := h; cors.rw := w |} in
  default ""%string (cors.cache h !! "Access-Control-Max-Age"%string)
    = strconv.Itoa (cors.MaxAge o)
  /\ strconv.Itoa (cors.MaxAge o) <> ""%string
  /\ http.rw_header (cors.rw s') !! "Access-Control-Max-Age"%string
     = Some [strconv.Itoa (cors.MaxAge o)]
  /\ http.Get (http.rw_header (cors.rw s')) "Access-Control-Max-Age"
     = strconv.Itoa (cors.MaxAge o).
Proof.
  intros Hpre. cbv zeta.
  pose proof (Itoa_nonempty (cors.MaxAge o)) as Hne.
  assert (http.rw_header
            (cors.rw (execState (cors.ServeHTTP req)
               {| cors.opts := execState cors.NewHandler o; cors.rw := w |}))
          !! "Access-Control-Max-Age"%string
          = Some [strconv.Itoa (cors.MaxAge o)]) as Hlook.
  { unfold execState at 1. rewrite ServeHTTP_run. cbn [snd cors.rw].
    rewrite Hpre. cbn [http.rw_header]. rewrite NewHandler_run.
    cbn [cors.cache cors.setCache]. header_lookup.
    rewrite lookup_insert_eq. cbn [default].
    change (evalState cors.GetMaxAge o) with (strconv.Itoa (cors.MaxAge o)).
    rewrite decide_False by exact Hne. reflexivity. }
  split.
  { rewrite NewHandler_run. cbn [cors.cache cors.setCache].
    rewrite lookup_insert_eq. reflexivity. }
  split; [exact Hne|]. split; [exact Hlook|].
  unfold http.Get.
  change (textproto.CanonicalMIMEHeaderKey "Access-Control-Max-Age")
    with "Access-Control-Max-Age"%string.
  rewrite Hlook. reflexivity.
Qed.

Lemma preflight_max_age_witness :
  cors.IsPreflight examples.preflight = true
  /\ http.Get
       (http.rw_header
          (cors.rw
             (execState (cors.ServeHTTP examples.preflight)
                {| cors.opts := execState cors.NewHandler examples.options;
                   cors.rw := examples.recorder |})))
       "Access-Control-Max-Age"
     = strconv.Itoa (cors.MaxAge examples.options).
Proof.
  split; [reflexivity|].
  apply (preflight_max_age examples.options examples.preflight
           examples.recorder).
  reflexivity.
Defined.

(** ** No failure path, no hidden state *)



(** C9. Each of the seven rules hands the [Options], configuration and
    cache, back as they were, and called again gives the value it gave; the
    handler too leaves the [Options] as they were. *)
Theorem rules_idempotent (req : http.Request) :
  readOnly (cors.GetAllowOrigin req)
  /\ readOnly cors.GetAllowCredentials
  /\ readOnly cors.GetAllowMethods
  /\ readOnly cors.GetAllowHeaders
  /\ readOnly cors.GetExposeHeaders
  /\ readOnly cors.GetMaxAge
  /\ readOnly cors.GetVary
  /\ forall (o : cors.Options) (w : http.ResponseWriter),
       cors.opts (execState (cors.ServeHTTP req)
                    {| cors.opts := o; cors.rw := w |}) = o.
Proof.
  split; [apply GetAllowOrigin_readOnly|].
  split; [apply GetAllowCredentials_readOnly|].
  split; [apply GetAllowMethods_readOnly|].
  split; [apply GetAllowHeaders_readOnly|].
  split; [apply GetExposeHeaders_readOnly|].
  split; [apply GetMaxAge_readOnly|].
  split; [apply GetVary_readOnly|].
  intros o w. unfold execState. rewrite ServeHTTP_run. reflexivity.
Qed.

(** ** The tests and examples of the package *)

Example TestRequest_IsPreflight : cors.IsPreflight examples.preflight = true.
Proof. reflexivity. Qed.

(** [TestRequest_IsNotPreflight]: [OPTIONS] with an [Origin] only. *)
Example TestRequest_IsNotPreflight :
  cors.IsPreflight
    {| http.Method := "OPTIONS";
       http.Header_ := {[ "Origin"%string := ["https://example.com"%string] ]} |}
  = false.
Proof. reflexivity. Qed.

(** [ExampleOptions] prints [GET, POST]; [ExampleNewOptions] prints [5]. *)
Example ExampleOptions :
  evalState cors.GetAllowMethods
    (cors.mkOptions false [] ["GET"; "POST"]%string [] [] cors.DefaultMaxAge ∅)
  = "GET, POST"%string.
Proof. reflexivity. Qed.

Example ExampleNewOptions : evalState cors.GetMaxAge cors.NewOptions = "5"%string.
Proof. reflexivity. Qed.

(** The cache of the plugin made from the default configuration. *)
Example default_plugin_cache :
  cors.cache (traefik.New traefik.CreateConfig) =
  {[ "Access-Control-Allow-Methods"%string := "HEAD, GET, POST"%string;
     "Access-Control-Allow-Headers"%string := ""%string;
     "Access-Control-Expose-Headers"%string := ""%string;
     "Access-Control-Max-Age"%string := "5"%string ]}.
Proof.
  unfold traefik.New. rewrite NewHandler_run. cbn [cors.cache cors.setCache].
  apply map_eq. intros k. vm_compute. reflexivity.
Qed.

(** * Further properties of the handler, the cache and the middleware *)

Ltac run_handler :=
  unfold execState; rewrite ServeHTTP_run; cbn [snd cors.rw cors.opts].

Lemma GetAllowCredentials_run (o : cors.Options) :
  evalState cors.GetAllowCredentials o =
  if cors.AllowCredentials o then "true"%string else ""%string.
Proof.
  unfold evalState, cors.GetAllowCredentials, bind, gets.
  destruct (cors.AllowCredentials o); reflexivity.
Qed.

Lemma GetAllowOrigin_run (o : cors.Options) (req : http.Request) :
  evalState (cors.GetAllowOrigin req) o =
  if decide ("*"%string ∈ cors.AllowOrigins o) then "*"%string
  else if decide (http.Get (http.Header_ req) "Origin" ∈ cors.AllowOrigins o)
       then http.Get (http.Header_ req) "Origin"
       else ""%string.
Proof. apply allowOriginLoop_spec. Qed.

(** X1. When more than one origin is configured the handler appends
    ["Origin"] to the [Vary] values the response has already, which stay in
    front of it; otherwise [Vary] is as it was.  Preflight or not. *)
Theorem handler_vary_appended (o : cors.Options) (req : http.Request)
    (w : http.ResponseWriter) :
  let s' := execState (cors.ServeHTTP req) {| cors.opts := o; cors.rw := w |} in
  http.rw_header (cors.rw s') !! "Vary"%string =
  if decide (1 < length (cors.AllowOrigins o))%nat
  then Some (default [] (http.rw_header w !! "Vary"%string) ++ ["Origin"%string])
  else http.rw_header w !! "Vary"%string.
Proof.
  cbv zeta. run_handler.
  destruct (cors.IsPreflight req); cbn [http.rw_header]; header_lookup;
    rewrite GetVary_run;
    destruct (decide (1 < length (cors.AllowOrigins o))%nat); reflexivity.
Qed.

(** X2. Every response, preflight or not, gets
    [Access-Control-Allow-Credentials: true] in place of what it had when
    the flag is set, also next to a wildcard origin; without the flag the
    header is as it was. *)
Theorem handler_allow_credentials (o : cors.Options) (req : http.Request)
    (w : http.ResponseWriter) :
  let s' := execState (cors.ServeHTTP req) {| cors.opts := o; cors.rw := w |} in
  http.rw_header (cors.rw s') !! "Access-Control-Allow-Credentials"%string =
  if cors.AllowCredentials o then Some ["true"%string]
  else http.rw_header w !! "Access-Control-Allow-Credentials"%string.
Proof.
  cbv zeta. run_handler.
  destruct (cors.IsPreflight req); cbn [http.rw_header]; header_lookup;
    rewrite GetAllowCredentials_run;
    destruct (cors.AllowCredentials o); reflexivity.
Qed.

(** X3. [Access-Control-Allow-Origin] after the handler: the one value
    ["*"] when the wildcard is configured; else the one value that is the
    [Origin] of the request when it is configured and not empty; else what
    the response had.  So a value the handler puts there is always one of
    the configured entries. *)
Theorem handler_allow_origin (o : cors.Options) (req : http.Request)
    (w : http.ResponseWriter) :
  let s' := execState (cors.ServeHTTP req) {| cors.opts := o; cors.rw := w |} in
  let origin := http.Get (http.Header_ req) "Origin" in
  let before := http.rw_header w !! "Access-Control-Allow-Origin"%string in
  let after :=
    http.rw_header (cors.rw s') !! "Access-Control-Allow-Origin"%string in
  after =
    (if decide ("*"%string ∈ cors.AllowOrigins o) then Some ["*"%string]
     else if decide (origin ∈ cors.AllowOrigins o /\ origin <> ""%string)
          then Some [origin]
          else before)
  /\ (after = before
      \/ exists v, after = Some [v] /\ v ∈ cors.AllowOrigins o).
Proof.
  cbv zeta.
  assert (http.rw_header
            (cors.rw (execState (cors.ServeHTTP req)
                        {| cors.opts := o; cors.rw := w |}))
          !! "Access-Control-Allow-Origin"%string
          = if decide (evalState (cors.GetAllowOrigin req) o = ""%string)
            then http.rw_header w !! "Access-Control-Allow-Origin"%string
            else Some [evalState (cors.GetAllowOrigin req) o]) as ->.
  { run_handler.
    destruct (cors.IsPreflight req); cbn [http.rw_header]; header_lookup;
      reflexivity. }
  rewrite GetAllowOrigin_run.
  destruct (decide ("*"%string ∈ cors.AllowOrigins o)) as [Hw|Hw].
  - rewrite decide_False by discriminate.
    split; [reflexivity|]. right. eexists. split; [reflexivity | exact Hw].
  - destruct (decide (http.Get (http.Header_ req) "Origin"
                        ∈ cors.AllowOrigins o)) as [Hin|Hin].
    + destruct (decide (http.Get (http.Header_ req) "Origin" = ""%string))
        as [He|He].
      * rewrite decide_False by tauto. split; [reflexivity | left; reflexivity].
      * rewrite decide_True by tauto.
        split; [reflexivity|]. right. eexists.
        split; [reflexivity | exact Hin].
    + rewrite decide_True by reflexivity. rewrite decide_False by tauto.
      split; [reflexivity | left; reflexivity].
Qed.

(** X4. The two branches keep apart.  A request that is not preflight gets
    [Access-Control-Expose-Headers] from the cache when the cached value is
    not empty, no status is written, and [Access-Control-Allow-Methods],
    [Access-Control-Allow-Headers] and [Access-Control-Max-Age] are as they
    were; a preflight request leaves [Access-Control-Expose-Headers] as it
    was. *)
Theorem handler_branches (o : cors.Options) (req : http.Request)
    (w : http.ResponseWriter) :
  let s' := execState (cors.ServeHTTP req) {| cors.opts := o; cors.rw := w |} in
  let before := http.rw_header w in
  let after := http.rw_header (cors.rw s') in
  let exposed :=
    default ""%string (cors.cache o !! "Access-Control-Expose-Headers"%string) in
  if cors.IsPreflight req then
    after !! "Access-Control-Expose-Headers"%string
      = before !! "Access-Control-Expose-Headers"%string
  else
    after !! "Access-Control-Expose-Headers"%string
      = (if decide (exposed = ""%string)
         then before !! "Access-Control-Expose-Headers"%string
         else Some [exposed])
    /\ http.rw_status (cors.rw s') = http.rw_status w
    /\ after !! "Access-Control-Allow-Methods"%string
       = before !! "Access-Control-Allow-Methods"%string
    /\ after !! "Access-Control-Allow-Headers"%string
       = before !! "Access-Control-Allow-Headers"%string
    /\ after !! "Access-Control-Max-Age"%string
       = before !! "Access-Control-Max-Age"%string.
Proof.
  cbv zeta. run_handler.
  destruct (cors.IsPreflight req); cbn [http.rw_header http.rw_status].
  - header_lookup. reflexivity.
  - split; [header_lookup; reflexivity|]. split; [reflexivity|].
    repeat split; header_lookup; reflexivity.
Qed.

(** X5. The handler changes no header but its own seven: any other name
    has after the call the values it had before. *)
Theorem handler_other_headers (o : cors.Options) (req : http.Request)
    (w : http.ResponseWriter) (k : string) :
  k ∉ ["Vary"; "Access-Control-Allow-Origin";
       "Access-Control-Allow-Credentials"; "Access-Control-Allow-Methods";
       "Access-Control-Allow-Headers"; "Access-Control-Max-Age";
       "Access-Control-Expose-Headers"]%string ->
  http.rw_header
    (cors.rw (execState (cors.ServeHTTP req)
                {| cors.opts := o; cors.rw := w |})) !! k
  = http.rw_header w !! k.
Proof.
  intros Hk.
  repeat (apply not_elem_of_cons in Hk; destruct Hk as [? Hk]).
  run_handler.
  destruct (cors.IsPreflight req); cbn [http.rw_header];
    repeat first [ rewrite lookup_setIf_ne by congruence
                 | rewrite lookup_addIf_ne by congruence ];
    reflexivity.
Qed.

Lemma handler_other_headers_witness :
  http.rw_header
    (cors.rw (execState (cors.ServeHTTP examples.preflight)
                {| cors.opts := execState cors.NewHandler examples.options;
                   cors.rw := examples.recorder |}))
    !! "Content-Type"%string
  = http.rw_header examples.recorder !! "Content-Type"%string.
Proof.
  apply (handler_other_headers (execState cors.NewHandler examples.options)
           examples.preflight examples.recorder "Content-Type").
  repeat (apply not_elem_of_cons; split; [discriminate|]).
  apply not_elem_of_nil.
Defined.

(** X6. What the handler writes depends on [AllowCredentials],
    [AllowOrigins] and the cache only: [AllowHeaders], [AllowMethods],
    [ExposeHeaders] and [MaxAge] changed after [NewHandler] change no
    response. *)
Theorem handler_reads_cache_only (o : cors.Options) (req : http.Request)
    (w : http.ResponseWriter)
    (hs ms es : list string) (age : Z) :
  cors.rw
    (execState (cors.ServeHTTP req)
       {| cors.opts :=
            cors.mkOptions (cors.AllowCredentials o) hs ms
              (cors.AllowOrigins o) es age (cors.cache o);
          cors.rw := w |})
  = cors.rw (execState (cors.ServeHTTP req)
               {| cors.opts := o; cors.rw := w |}).
Proof.
  unfold execState. rewrite !ServeHTTP_run. cbn [snd cors.rw cors.cache].
  rewrite !GetAllowCredentials_run, !GetVary_run, !GetAllowOrigin_run.
  reflexivity.
Qed.

(** X7. [NewHandler] starts from an empty cache: what the cache held before
    is gone and the result is the same; so calling it again changes
    nothing. *)
Theorem NewHandler_rebuilds (o : cors.Options) :
  (forall c : gmap string string,
     execState cors.NewHandler (cors.setCache c o)
     = execState cors.NewHandler o)
  /\ execState cors.NewHandler (execState cors.NewHandler o)
     = execState cors.NewHandler o.
Proof.
  assert (forall c : gmap string string,
            execState cors.NewHandler (cors.setCache c o)
            = execState cors.NewHandler o) as Hc.
  { intros c. rewrite !NewHandler_run.
    unfold evalState.
    rewrite GetAllowMethods_setCache, GetAllowHeaders_setCache,
      GetExposeHeaders_setCache, GetMaxAge_setCache.
    reflexivity. }
  split; [exact Hc|].
  rewrite (NewHandler_run o) at 1. apply Hc.
Qed.

(** ** The list rules: empty values and reading back *)

Lemma list_rules_run (l hs ms es : list string) (creds : bool)
    (os : list string) (age : Z) (c : gmap string string) :
  let value :=
    if decide ("*"%string ∈ l) then "*"%string else strings.Join l ", " in
  evalState cors.GetAllowMethods (cors.mkOptions creds hs l os es age c)
    = value
  /\ evalState cors.GetAllowHeaders (cors.mkOptions creds l ms os es age c)
    = value
  /\ evalState cors.GetExposeHeaders (cors.mkOptions creds hs ms os l age c)
    = value.
Proof.
  cbv zeta.
  unfold evalState, cors.GetAllowMethods, cors.GetAllowHeaders,
    cors.GetExposeHeaders, bind, gets.
  cbn [cors.AllowMethods cors.AllowHeaders cors.ExposeHeaders].
  rewrite wildcardLoop_spec.
  destruct (decide ("*"%string ∈ l)); repeat split; reflexivity.
Qed.

Lemma sapp_eq_nil (s t : string) :
  (s +:+ t)%string = ""%string -> s = ""%string /\ t = ""%string.
Proof.
  destruct s as [|c s]; [intros H; split; [reflexivity | exact H]|].
  rewrite sapp_cons. discriminate.
Qed.

Lemma Join_empty_iff (l : list string) :
  strings.Join l ", " = ""%string <-> l = [] \/ l = [""%string].
Proof.
  destruct l as [|x [|y l]].
  - split; [left; reflexivity | reflexivity].
  - cbn [strings.Join]. split.
    + intros ->. right. reflexivity.
    + intros [H|H]; [discriminate | congruence].
  - change (strings.Join (x :: y :: l) ", ")
      with (x +:+ String "," (String " " (y +:+ strings.joinTail ", " l)))%string.
    split.
    + intros H. apply sapp_eq_nil in H. destruct H as [_ H]. discriminate.
    + intros [H|H]; discriminate.
Qed.

(** X8. A list rule gives the empty value, and so no header, exactly for
    the empty list and for the list of one empty string; a list of two or
    more entries always gives a header, empty entries or not. *)
Theorem list_rules_empty_iff (l hs ms es : list string) (creds : bool)
    (os : list string) (age : Z) (c : gmap string string) :
  (evalState cors.GetAllowMethods (cors.mkOptions creds hs l os es age c)
     = ""%string <-> l = [] \/ l = [""%string])
  /\ (evalState cors.GetAllowHeaders (cors.mkOptions creds l ms os es age c)
        = ""%string <-> l = [] \/ l = [""%string])
  /\ (evalState cors.GetExposeHeaders (cors.mkOptions creds hs ms os l age c)
        = ""%string <-> l = [] \/ l = [""%string]).
Proof.
  destruct (list_rules_run l hs ms es creds os age c) as (-> & -> & ->).
  assert ((if decide ("*"%string ∈ l) then "*"%string
           else strings.Join l ", ") = ""%string
          <-> l = [] \/ l = [""%string]) as H.
  { destruct (decide ("*"%string ∈ l)) as [Hw|Hw].
    - split; [discriminate|].
      intros [-> | ->]; exfalso.
      + apply elem_of_nil in Hw. exact Hw.
      + apply list_elem_of_singleton in Hw. discriminate.
    - apply Join_empty_iff. }
  repeat split; apply H.
Qed.

Lemma fields_commaFree (x s : string) :
  headerList.commaFree x = true ->
  headerList.fields (x +:+ s)
  = ((x +:+ fst (headerList.fields s))%string, snd (headerList.fields s)).
Proof.
  induction x as [|ch x IH]; intros Hx.
  - change (("" +:+ s)%string) with s.
    change (("" +:+ fst (headerList.fields s))%string)
      with (fst (headerList.fields s)).
    destruct (headerList.fields s); reflexivity.
  - cbn [headerList.commaFree] in Hx. apply andb_true_iff in Hx.
    destruct Hx as [Hc Hx]. apply negb_true_iff in Hc.
    rewrite sapp_cons. cbn [headerList.fields].
    rewrite (IH Hx), Hc. rewrite sapp_cons. reflexivity.
Qed.

Lemma fields_joinTail (l : list string) :
  Forall (fun x => headerList.commaFree x = true) l ->
  headerList.fields (strings.joinTail ", " l) = (""%string, map (String " ") l).
Proof.
  induction 1 as [|y l Hy Hl IH]; [reflexivity|].
  change (strings.joinTail ", " (y :: l))
    with (String "," (String " " (y +:+ strings.joinTail ", " l)))%string.
  cbn [headerList.fields].
  rewrite (fields_commaFree y _ Hy), IH. cbn [fst snd].
  rewrite sapp_nil_r. reflexivity.
Qed.

Lemma dropSpace_space (l : list string) :
  map headerList.dropSpace (map (String " ") l) = l.
Proof.
  induction l as [|y l IH]; [reflexivity|].
  cbn [map]. rewrite IH. reflexivity.
Qed.

Lemma decode_Join (l : list string) :
  l <> [""%string] ->
  Forall (fun x => headerList.commaFree x = true) l ->
  headerList.decode (strings.Join l ", ") = l.
Proof.
  intros Hne Hall. destruct l as [|x rest]; [reflexivity|].
  assert (strings.Join (x :: rest) ", "
          = (x +:+ strings.joinTail ", " rest)%string) as ->.
  { destruct rest; [symmetry; apply sapp_nil_r | reflexivity]. }
  inversion Hall as [|? ? Hx Hrest]; subst.
  pose proof (fields_commaFree x (strings.joinTail ", " rest) Hx) as Hf.
  rewrite (fields_joinTail rest Hrest) in Hf. cbn [fst snd] in Hf.
  rewrite sapp_nil_r in Hf.
  unfold headerList.decode.
  destruct (x +:+ strings.joinTail ", " rest)%string as [|ch t] eqn:E.
  - exfalso. apply sapp_eq_nil in E. destruct E as [-> E].
    destruct rest as [|y rest]; [apply Hne; reflexivity | discriminate E].
  - rewrite Hf, dropSpace_space. reflexivity.
Qed.

(** X9. The list behind a list header can be read back from the value:
    for a list without the wildcard whose entries have no comma (and that
    is not the one empty string), cutting the value of [GetAllowMethods],
    [GetAllowHeaders] or [GetExposeHeaders] at the commas, the space after
    each dropped, gives the configured list, in order. *)
Theorem list_rules_round_trip (l hs ms es : list string) (creds : bool)
    (os : list string) (age : Z) (c : gmap string string) :
  "*"%string ∉ l ->
  l <> [""%string] ->
  Forall (fun x => headerList.commaFree x = true) l ->
  headerList.decode
    (evalState cors.GetAllowMethods (cors.mkOptions creds hs l os es age c))
    = l
  /\ headerList.decode
       (evalState cors.GetAllowHeaders (cors.mkOptions creds l ms os es age c))
     = l
  /\ headerList.decode
       (evalState cors.GetExposeHeaders (cors.mkOptions creds hs ms os l age c))
     = l.
Proof.
  intros Hw Hne Hall.
  destruct (list_rules_run l hs ms es creds os age c) as (-> & -> & ->).
  rewrite decide_False by exact Hw.
  rewrite (decode_Join l Hne Hall). repeat split.
Qed.

Lemma list_rules_round_trip_witness :
  headerList.decode
    (evalState cors.GetAllowMethods
       (cors.mkOptions false [] ["GET"; "POST"]%string [] [] 5 ∅))
  = ["GET"; "POST"]%string.
Proof.
  apply (list_rules_round_trip ["GET"; "POST"]%string [] [] [] false [] 5 ∅).
  - intros H. repeat (apply elem_of_cons in H; destruct H as [H|H];
                      [discriminate H|]).
    apply elem_of_nil in H. exact H.
  - discriminate.
  - repeat constructor.
Defined.

(** ** The plugin *)

(** X10. [New] hands the six fields of the configuration to the handler as
    they are and builds the cache from them: each list value is ["*"] when
    its list holds the wildcard and the entries joined with [", "]
    otherwise, and the age is the numeral of [MaxAge]. *)
Theorem New_from_config (config : traefik.Config) :
  let o := traefik.New config in
  let value (l : list string) :=
    if decide ("*"%string ∈ l) then "*"%string else String.concat ", " l in
  (cors.AllowCredentials o, cors.AllowHeaders o, cors.AllowMethods o,
   cors.AllowOrigins o, cors.ExposeHeaders o, cors.MaxAge o)
  = (traefik.AllowCredentials config, traefik.AllowHeaders config,
     traefik.AllowMethods config, traefik.AllowOrigins config,
     traefik.ExposeHeaders config, traefik.MaxAge config)
  /\ cors.cache o =
     {[ "Access-Control-Allow-Methods"%string
          := value (traefik.AllowMethods config);
        "Access-Control-Allow-Headers"%string
          := value (traefik.AllowHeaders config);
        "Access-Control-Expose-Headers"%string
          := value (traefik.ExposeHeaders config);
        "Access-Control-Max-Age"%string
          := strconv.Itoa (traefik.MaxAge config) ]}.
Proof.
  cbv zeta. unfold traefik.New. rewrite NewHandler_run.
  split; [reflexivity|]. cbn [cors.cache cors.setCache].
  destruct (list_rules_run (traefik.AllowMethods config)
              (traefik.AllowHeaders config) [] (traefik.ExposeHeaders config)
              (traefik.AllowCredentials config) (traefik.AllowOrigins config)
              (traefik.MaxAge config) ∅) as (-> & _ & _).
  destruct (list_rules_run (traefik.AllowHeaders config) []
              (traefik.AllowMethods config) (traefik.ExposeHeaders config)
              (traefik.AllowCredentials config) (traefik.AllowOrigins config)
              (traefik.MaxAge config) ∅) as (_ & -> & _).
  destruct (list_rules_run (traefik.ExposeHeaders config)
              (traefik.AllowHeaders config) (traefik.AllowMethods config) []
              (traefik.AllowCredentials config) (traefik.AllowOrigins config)
              (traefik.MaxAge config) ∅) as (_ & _ & ->).
  rewrite !Join_concat.
  change (evalState cors.GetMaxAge _)
    with (strconv.Itoa (traefik.MaxAge config)).
  apply map_eq. intros k.
  rewrite !lookup_insert, lookup_singleton, lookup_empty.
  repeat destruct (decide _); subst; try reflexivity; try discriminate;
    congruence.
Qed.

(** X11. The plugin of the default configuration ([CreateConfig]): every
    response gets [Access-Control-Allow-Origin: *], and neither [Vary] nor
    [Access-Control-Allow-Credentials]; a preflight response gets
    [Access-Control-Allow-Methods: HEAD, GET, POST] and
    [Access-Control-Max-Age: 5] but, the default list being empty, no
    [Access-Control-Allow-Headers]; another response gets no
    [Access-Control-Expose-Headers]. *)
Theorem default_plugin_response (req : http.Request) (w : http.ResponseWriter) :
  let s' := execState (cors.ServeHTTP req)
              {| cors.opts := traefik.New traefik.CreateConfig;
                 cors.rw := w |} in
  let before := http.rw_header w in
  let after := http.rw_header (cors.rw s') in
  after !! "Access-Control-Allow-Origin"%string = Some ["*"%string]
  /\ after !! "Vary"%string = before !! "Vary"%string
  /\ after !! "Access-Control-Allow-Credentials"%string
     = before !! "Access-Control-Allow-Credentials"%string
  /\ if cors.IsPreflight req then
       after !! "Access-Control-Allow-Methods"%string
         = Some ["HEAD, GET, POST"%string]
       /\ after !! "Access-Control-Max-Age"%string = Some ["5"%string]
       /\ after !! "Access-Control-Allow-Headers"%string
          = before !! "Access-Control-Allow-Headers"%string
     else
       after !! "Access-Control-Expose-Headers"%string
         = before !! "Access-Control-Expose-Headers"%string.
Proof.
  cbv zeta. run_handler.
  set (o := traefik.New traefik.CreateConfig).
  assert (evalState cors.GetVary o = ""%string) as -> by reflexivity.
  assert (evalState (cors.GetAllowOrigin req) o = "*"%string) as ->
    by reflexivity.
  assert (evalState cors.GetAllowCredentials o = ""%string) as ->
    by reflexivity.
  assert (default ""%string (cors.cache o !! "Access-Control-Allow-Methods"%string)
          = "HEAD, GET, POST"%string) as -> by reflexivity.
  assert (default ""%string (cors.cache o !! "Access-Control-Allow-Headers"%string)
          = ""%string) as -> by reflexivity.
  assert (default ""%string (cors.cache o !! "Access-Control-Max-Age"%string)
          = "5"%string) as -> by reflexivity.
  assert (default ""%string (cors.cache o !! "Access-Control-Expose-Headers"%string)
          = ""%string) as -> by reflexivity.
  destruct (cors.IsPreflight req); cbn [http.rw_header];
    repeat split; header_lookup; reflexivity.
Qed.



(** ** Many requests *)



(** X14. Run twice on a response (two layers of the handler, say), the
    handler leaves every header but [Vary] as one run leaves it; [Vary] has
    ["Origin"] twice behind its earlier values when more than one origin is
    configured, and is as it was otherwise. *)
Theorem handler_twice (o : cors.Options) (req : http.Request)
    (w : http.ResponseWriter) (k : string) :
  let once := execState (cors.ServeHTTP req) {| cors.opts := o; cors.rw := w |} in
  let twice := execState (cors.ServeHTTP req) once in
  http.rw_header (cors.rw twice) !! k =
  if decide (k = "Vary"%string) then
    if decide (1 < length (cors.AllowOrigins o))%nat
    then Some (default [] (http.rw_header w !! "Vary"%string)
               ++ ["Origin"; "Origin"]%string)
    else http.rw_header w !! "Vary"%string
  else http.rw_header (cors.rw once) !! k.
Proof.
  cbv zeta. unfold execState. rewrite ServeHTTP_run.
  cbn [snd]. rewrite ServeHTTP_run. cbn [snd cors.rw].
  destruct (decide (k = "Vary"%string)) as [->|Hk].
  - destruct (cors.IsPreflight req); cbn [http.rw_header]; header_lookup;
      rewrite GetVary_run;
      destruct (decide (1 < length (cors.AllowOrigins o))%nat);
      try reflexivity;
      rewrite !(decide_False (P := "Origin"%string = ""%string))
        by discriminate;
      cbn [default id]; rewrite <- List.app_assoc; reflexivity.
  - destruct (cors.IsPreflight req); cbn [http.rw_header];
      destruct (decide (k = "Access-Control-Max-Age"%string));
      destruct (decide (k = "Access-Control-Allow-Headers"%string));
      destruct (decide (k = "Access-Control-Allow-Methods"%string));
      destruct (decide (k = "Access-Control-Expose-Headers"%string));
      destruct (decide (k = "Access-Control-Allow-Credentials"%string));
      destruct (decide (k = "Access-Control-Allow-Origin"%string));
      try congruence; subst;
      repeat first [ rewrite lookup_setIf_eq
                   | rewrite lookup_setIf_ne by congruence
                   | rewrite lookup_addIf_ne by congruence ];
      repeat destruct (decide _); try reflexivity; contradiction.
Qed.

(** ** Configurations at the edges *)

(** X15. The handler of [NewOptions] (no origin, no method, no header, no
    credentials, age 5) shares nothing: the only header it ever sets is
    [Access-Control-Max-Age: 5], on a preflight request, which it still
    answers with 204; any other request leaves the response as it was. *)
Theorem NewOptions_handler (req : http.Request) (w : http.ResponseWriter) :
  let s' := execState (cors.ServeHTTP req)
              {| cors.opts := execState cors.NewHandler cors.NewOptions;
                 cors.rw := w |} in
  if cors.IsPreflight req then
    http.rw_header (cors.rw s')
      = <["Access-Control-Max-Age"%string := ["5"%string]]> (http.rw_header w)
    /\ http.rw_status (cors.rw s') = http.rw_status w ++ [204]
  else cors.rw s' = w.
Proof.
  cbv zeta. set (o := execState cors.NewHandler cors.NewOptions).
  run_handler.
  assert (evalState cors.GetVary o = ""%string) as -> by reflexivity.
  assert (evalState (cors.GetAllowOrigin req) o = ""%string) as ->
    by reflexivity.
  assert (evalState cors.GetAllowCredentials o = ""%string) as ->
    by reflexivity.
  assert (default ""%string (cors.cache o !! "Access-Control-Allow-Methods"%string)
          = ""%string) as -> by reflexivity.
  assert (default ""%string (cors.cache o !! "Access-Control-Allow-Headers"%string)
          = ""%string) as -> by reflexivity.
  assert (default ""%string (cors.cache o !! "Access-Control-Max-Age"%string)
          = "5"%string) as -> by reflexivity.
  assert (default ""%string (cors.cache o !! "Access-Control-Expose-Headers"%string)
          = ""%string) as -> by reflexivity.
  destruct (cors.IsPreflight req).
  - split; reflexivity.
  - destruct w; reflexivity.
Qed.

(** X16. The wildcard next to another entry: every response gets
    [Access-Control-Allow-Origin: *], whatever the request, and [Vary] still
    gets ["Origin"], since [GetVary] looks at the length of the list
    only. *)
Theorem wildcard_with_others_varies (o : cors.Options) (req : http.Request)
    (w : http.ResponseWriter) :
  "*"%string ∈ cors.AllowOrigins o ->
  (1 < length (cors.AllowOrigins o))%nat ->
  let s' := execState (cors.ServeHTTP req) {| cors.opts := o; cors.rw := w |} in
  http.rw_header (cors.rw s') !! "Access-Control-Allow-Origin"%string
    = Some ["*"%string]
  /\ http.rw_header (cors.rw s') !! "Vary"%string
     = Some (default [] (http.rw_header w !! "Vary"%string) ++ ["Origin"%string]).
Proof.
  intros Hw Hlen. cbv zeta. run_handler.
  destruct (cors.IsPreflight req); cbn [http.rw_header]; header_lookup;
    rewrite GetAllowOrigin_run, GetVary_run;
    rewrite (decide_True (P := "*"%string ∈ cors.AllowOrigins o)) by exact Hw;
    rewrite (decide_True (P := (1 < length (cors.AllowOrigins o))%nat))
      by exact Hlen;
    split; reflexivity.
Qed.

Lemma wildcard_with_others_varies_witness :
  let o := cors.mkOptions false [] []
             ["*"; "https://example.com"]%string [] 5 ∅ in
  http.rw_header
    (cors.rw (execState (cors.ServeHTTP examples.preflight)
                {| cors.opts := o; cors.rw := examples.recorder |}))
    !! "Vary"%string
  = Some ["Origin"%string].
Proof.
  cbv zeta.
  apply (wildcard_with_others_varies
           (cors.mkOptions false [] [] ["*"; "https://example.com"]%string
              [] 5 ∅)
           examples.preflight examples.recorder).
  - apply list_elem_of_here.
  - cbn. lia.
Defined.

(** X17. One configured origin that is not the wildcard: the response gets
    [Access-Control-Allow-Origin] with that origin exactly when the request
    comes from it, so the header depends on the request; [Vary] is left as
    it was all the same. *)
Theorem single_origin_no_vary (o : cors.Options) (req : http.Request)
    (w : http.ResponseWriter) (allowed : string) :
  cors.AllowOrigins o = [allowed] ->
  allowed <> "*"%string ->
  allowed <> ""%string ->
  let s' := execState (cors.ServeHTTP req) {| cors.opts := o; cors.rw := w |} in
  http.rw_header (cors.rw s') !! "Access-Control-Allow-Origin"%string
    = (if decide (http.Get (http.Header_ req) "Origin" = allowed)
       then Some [allowed]
       else http.rw_header w !! "Access-Control-Allow-Origin"%string)
  /\ http.rw_header (cors.rw s') !! "Vary"%string
     = http.rw_header w !! "Vary"%string.
Proof.
  intros Hl Hw Hne. cbv zeta. run_handler.
  assert (evalState (cors.GetAllowOrigin req) o
          = if decide (http.Get (http.Header_ req) "Origin" = allowed)
            then allowed else ""%string) as Hv.
  { rewrite GetAllowOrigin_run, Hl.
    rewrite decide_False
      by (intros H; apply list_elem_of_singleton in H; congruence).
    destruct (decide (http.Get (http.Header_ req) "Origin" = allowed))
      as [E|E].
    - rewrite decide_True by (apply list_elem_of_singleton; exact E).
      exact E.
    - rewrite decide_False
        by (intros H; apply list_elem_of_singleton in H; contradiction).
      reflexivity. }
  destruct (cors.IsPreflight req); cbn [http.rw_header]; header_lookup;
    rewrite Hv, GetVary_run, Hl;
    (split; [|reflexivity]);
    destruct (decide (http.Get (http.Header_ req) "Origin" = allowed));
    [ rewrite decide_False by exact Hne; reflexivity | reflexivity
    | rewrite decide_False by exact Hne; reflexivity | reflexivity ].
Qed.

Lemma single_origin_no_vary_witness :
  http.rw_header
    (cors.rw (execState (cors.ServeHTTP examples.preflight)
                {| cors.opts := examples.options;
                   cors.rw := examples.recorder |}))
    !! "Vary"%string
  = http.rw_header examples.recorder !! "Vary"%string.
Proof.
  apply (single_origin_no_vary examples.options examples.preflight
           examples.recorder "https://example.com").
  - reflexivity.
  - discriminate.
  - discriminate.
Defined.
